(** * bildBackup.py: a shallow embedding of the Bild PDM backup client

    The development follows [src/bildBackup.py].  Python values that come
    out of [response.json()] are modelled by the type [json]; the file
    system, the network and the statistics dictionary of [BildAPIClient]
    are threaded through a small state-and-exception monad.  Console output
    ([print]) and the pacing delay ([time.sleep]) have no effect on any of
    these and are left out. *)

From Stdlib Require Import String Ascii List ZArith NArith Lia Bool Arith.
From Stdlib Require Import Init.Byte.
Import ListNotations.

Local Open Scope string_scope.
Local Open Scope list_scope.

(** ** Python strings

    A Python [str] is a sequence of code points, and [len] counts code
    points.  The functions below work on lists of code points.  A [string]
    of this development stands for the Python [str] that has the same code
    points, one per character of the [string], all of them below 256;
    [sanitize_filename] converts at its boundary.  The number of bytes of a
    name is the length of its UTF-8 encoding, [utf8_len]. *)

Module PyStr.

Definition code := N.

Definition chars := list code.

Definition code_of (c : ascii) : code := N_of_ascii c.

Definition of_string (s : string) : chars := map code_of (list_ascii_of_string s).
Definition to_string (l : chars) : string := string_of_list_ascii (map ascii_of_N l).

Definition len (l : chars) : Z := Z.of_nat (length l).

(** The bytes UTF-8 spends on a code point, and on a string. *)
Definition utf8_size (c : code) : nat :=
  if (c <? 128)%N then 1
  else if (c <? 2048)%N then 2
  else if (c <? 65536)%N then 3
  else 4.

Definition utf8_len (l : chars) : nat := list_sum (map utf8_size l).

Definition mem (c : code) (set : chars) : bool :=
  existsb (N.eqb c) set.

(** [p[:k]] with Python's treatment of a negative bound. *)
Definition slice_to (l : chars) (k : Z) : chars :=
  if (k <? 0)%Z
  then firstn (Z.to_nat (Z.max 0 (len l + k))) l
  else firstn (Z.to_nat k) l.

(** [p[k:]]. *)
Definition slice_from (l : chars) (k : Z) : chars :=
  if (k <? 0)%Z
  then skipn (Z.to_nat (Z.max 0 (len l + k))) l
  else skipn (Z.to_nat k) l.

(** [p[i:i+1]] as an optional character. *)
Definition char_at (l : chars) (i : Z) : option code :=
  if (i <? 0)%Z then None else nth_error l (Z.to_nat i).

Fixpoint lstrip (set : chars) (l : chars) : chars :=
  match l with
  | [] => []
  | c :: l' => if mem c set then lstrip set l' else l
  end.

Definition rstrip (set : chars) (l : chars) : chars :=
  rev (lstrip set (rev l)).

(** [s.strip(set)] removes the characters of [set] at both ends. *)
Definition strip (set : chars) (l : chars) : chars :=
  rstrip set (lstrip set l).

(** [rfind_from i c l]: last index of [c] in [l], counted from [i];
    [-1] when [c] does not occur. *)
Fixpoint rfind_from (i : Z) (c : code) (l : chars) : Z :=
  match l with
  | [] => (-1)%Z
  | x :: l' =>
      let r := rfind_from (i + 1)%Z c l' in
      if (0 <=? r)%Z then r else if N.eqb x c then i else (-1)%Z
  end.

Definition rfind (c : code) (l : chars) : Z := rfind_from 0%Z c l.

End PyStr.

(** ** [os.path.splitext]

    Modelled from the Python standard library ([posixpath.splitext], that is
    [genericpath._splitext] with [sep = '/'], no [altsep] and
    [extsep = '.']); the repository only calls it. *)

Module OsPath.
Import PyStr.

Definition sep : code := code_of "/"%char.
Definition extsep : code := code_of "."%char.

(** The [while filenameIndex < dotIndex] loop of [_splitext]: [n] is the
    number of iterations left, [true] means the loop returned the split. *)
Fixpoint skip_leading_dots (p : chars) (filenameIndex : Z) (n : nat) : bool :=
  match n with
  | O => false
  | S n' =>
      match char_at p filenameIndex with
      | Some c =>
          if N.eqb c extsep
          then skip_leading_dots p (filenameIndex + 1)%Z n'
          else true
      | None => true
      end
  end.

Definition splitext (p : chars) : chars * chars :=
  let sepIndex := rfind sep p in
  let dotIndex := rfind extsep p in
  if (sepIndex <? dotIndex)%Z
  then
    let filenameIndex := (sepIndex + 1)%Z in
    if skip_leading_dots p filenameIndex (Z.to_nat (dotIndex - filenameIndex))
    then (slice_to p dotIndex, slice_from p dotIndex)
    else (p, [])
  else (p, []).

End OsPath.

(** ** [sanitize_filename] (lines 155-173) *)

(** The character class of the pattern given to [re.sub]: the nine
    characters less-than, greater-than, colon, double quote, slash,
    backslash, bar, question mark and star. *)
Definition dquote : ascii := ascii_of_nat 34.

Definition invalid_chars : PyStr.chars :=
  map PyStr.code_of
      [ "<"%char; ">"%char; ":"%char; dquote; "/"%char; "\"%char;
        "|"%char; "?"%char; "*"%char ].

Definition is_invalid_char (c : PyStr.code) : bool := PyStr.mem c invalid_chars.

Definition replace_invalid (l : PyStr.chars) : PyStr.chars :=
  map (fun c => if is_invalid_char c then PyStr.code_of "_"%char else c) l.

(** The method on the code points of any Python string. *)
Definition sanitize_chars (filename : PyStr.chars) : PyStr.chars :=
  let sanitized := replace_invalid filename in
  let sanitized := PyStr.strip (PyStr.of_string ". ") sanitized in
  let sanitized :=
    if (255 <? PyStr.len sanitized)%Z
    then
      let '(name, ext) := OsPath.splitext sanitized in
      PyStr.slice_to name (255 - PyStr.len ext) ++ ext
    else sanitized in
  match sanitized with
  | [] => PyStr.of_string "unnamed_file"
  | _ => sanitized
  end.

Definition sanitize_filename (filename : string) : string :=
  PyStr.to_string (sanitize_chars (PyStr.of_string filename)).

(** ** Exceptions and results

    The exception classes the program can meet.  All of them derive from
    [Exception]; [RequestException] stands for the whole family that
    [requests] raises (connection errors, [HTTPError] from
    [raise_for_status], decoding errors of [response.json()], errors while
    streaming the body). *)

Inductive exn_class : Type :=
| RequestException
| AttributeError
| TypeError
| OSError
| RecursionError.

Record exn : Type := mkExn { exn_kind : exn_class; exn_text : string }.

Definition is_RequestException (e : exn) : bool :=
  match exn_kind e with
  | RequestException => true
  | _ => false
  end.

Inductive result (A : Type) : Type :=
| Ok (a : A)
| Raise (e : exn).

Arguments Ok {A} a.
Arguments Raise {A} e.

(** ** JSON values, with the Python operations the program applies to them *)

#[local] Set Warnings "-register-all".

Inductive json : Type :=
| JNull
| JBool (b : bool)
| JNum (n : Z)
| JStr (s : string)
| JList (items : list json)
| JDict (fields : list (string * json)).

Module Py.

Definition type_name (v : json) : string :=
  match v with
  | JNull => "NoneType"
  | JBool _ => "bool"
  | JNum _ => "int"
  | JStr _ => "str"
  | JList _ => "list"
  | JDict _ => "dict"
  end.

Fixpoint dict_get (key : string) (fields : list (string * json)) : option json :=
  match fields with
  | [] => None
  | (k, v) :: rest => if String.eqb k key then Some v else dict_get key rest
  end.

(** [key in d] for a dict [d]. *)
Definition dict_has (key : string) (fields : list (string * json)) : bool :=
  match dict_get key fields with
  | Some _ => true
  | None => false
  end.

(** [d.get(key, default)] for a dict [d]. *)
Definition dict_get_default (key : string) (default : json)
           (fields : list (string * json)) : json :=
  match dict_get key fields with
  | Some v => v
  | None => default
  end.

Definition no_attribute (v : json) (attr : string) : exn :=
  mkExn AttributeError
        ("'" ++ type_name v ++ "' object has no attribute '" ++ attr ++ "'").

(** [v.get(key, default)]: only a dict has the method. *)
Definition get (v : json) (key : string) (default : json) : result json :=
  match v with
  | JDict fields => Ok (dict_get_default key default fields)
  | _ => Raise (no_attribute v "get")
  end.

(** [bool(v)], as tested by [if not v]. *)
Definition truthy (v : json) : bool :=
  match v with
  | JNull => false
  | JBool b => b
  | JNum n => negb (n =? 0)%Z
  | JStr s => negb (String.eqb s "")
  | JList items => match items with [] => false | _ => true end
  | JDict fields => match fields with [] => false | _ => true end
  end.

(** [v == s] for a string literal [s]. *)
Definition eq_str (v : json) (s : string) : bool :=
  match v with
  | JStr s' => String.eqb s' s
  | _ => false
  end.

Definition is_list (v : json) : bool :=
  match v with JList _ => true | _ => false end.

Definition is_dict (v : json) : bool :=
  match v with JDict _ => true | _ => false end.

(** The elements [for x in v] runs through: the items of a list, the keys
    of a dict, the characters of a string. *)
Definition iter (v : json) : result (list json) :=
  match v with
  | JList items => Ok items
  | JDict fields => Ok (map (fun kv => JStr (fst kv)) fields)
  | JStr s => Ok (map (fun c => JStr (String c EmptyString)) (list_ascii_of_string s))
  | _ => Raise (mkExn TypeError ("'" ++ type_name v ++ "' object is not iterable"))
  end.

(** [len(v)]. *)
Definition len (v : json) : result Z :=
  match v with
  | JList items => Ok (Z.of_nat (length items))
  | JDict fields => Ok (Z.of_nat (length fields))
  | JStr s => Ok (Z.of_nat (String.length s))
  | _ => Raise (mkExn TypeError ("object of type '" ++ type_name v ++ "' has no len()"))
  end.

End Py.

(** ** The flattening fragment (lines 252-277)

    In the source these lines follow the last [return] of [download_file]:
    the [def] line that should introduce them is absent, so the docstring
    and the body (the local list [flat_files], the nested function
    [process_item] and the loop over [files_data]) are never executed.  The
    body is embedded here as the function its docstring describes, with
    [files_data] as its argument.

    [process_item] calls itself once per level of nesting, and the
    interpreter allows only so many nested calls: [budget] is the number of
    nested calls of [process_item] still allowed when the traversal starts
    (the recursion limit less the frames in use).  A call made when none is
    left raises [RecursionError]. *)

Definition recursion_error : exn :=
  mkExn RecursionError "maximum recursion depth exceeded".

(** What [process_item], with [budget] calls left, raises on a string: a
    string has no [get], if the call can be made at all. *)
Definition on_string (budget : nat) (s : string) : exn :=
  match budget with
  | O => recursion_error
  | S _ => Py.no_attribute (JStr s) "get"
  end.

Section Traversal.

Context {R : Type}.

(** [for x in l: acc = f x acc], stopping at the first exception. *)
Definition for_each (f : json -> R -> result R) : list json -> R -> result R :=
  fix loop (l : list json) (acc : R) : result R :=
    match l with
    | [] => Ok acc
    | x :: rest =>
        match f x acc with
        | Ok acc' => loop rest acc'
        | Raise e => Raise e
        end
    end.

(** [for x in v: f x] for an arbitrary value [v], where [f] is the body
    [process_item]: the keys of a dict and the characters of a string are
    strings, on the first of which [f] raises [on_str]. *)
Definition for_each_in (f : json -> R -> result R) (on_str : string -> exn)
           (v : json) (acc : R) : result R :=
  match v with
  | JList items => for_each f items acc
  | JDict fields =>
      match fields with
      | [] => Ok acc
      | (k, _) :: _ => Raise (on_str k)
      end
  | JStr s =>
      match s with
      | EmptyString => Ok acc
      | String c _ => Raise (on_str (String c EmptyString))
      end
  | _ => Raise (mkExn TypeError ("'" ++ Py.type_name v ++ "' object is not iterable"))
  end.

(** [k (d[key])], with [missing] when the key is absent. *)
Definition with_field (key : string) (k : json -> result R) (missing : result R)
  : list (string * json) -> result R :=
  fix find (fields : list (string * json)) : result R :=
    match fields with
    | [] => missing
    | (name, v) :: rest => if String.eqb name key then k v else find rest
    end.

End Traversal.

Fixpoint process_item (budget : nat) (item : json) (flat_files : list json)
         {struct item} : result (list json) :=
  match budget with
  | O => Raise recursion_error
  | S budget' =>
      match item with
      | JDict fields =>
          if Py.eq_str (Py.dict_get_default "type" JNull fields) "file"
          then Ok (flat_files ++ [item])
          else if Py.eq_str (Py.dict_get_default "type" JNull fields) "folder"
                  && Py.dict_has "children" fields
          then with_field "children"
                 (fun children =>
                    for_each_in (process_item budget') (on_string budget')
                                children flat_files)
                 (Ok flat_files) fields
          else if Py.dict_has "files" fields
          then with_field "files"
                 (fun files =>
                    for_each_in (process_item budget') (on_string budget')
                                files flat_files)
                 (Ok flat_files) fields
          else Ok flat_files
      | _ => Raise (Py.no_attribute item "get")
      end
  end.

Definition flatten_file_structure (budget : nat) (files_data : json)
  : result (list json) :=
  for_each_in (process_item budget) (on_string budget) files_data [].

(** ** The file system

    A tree of directories and regular files; a [Path] is the list of the
    segments below the root, as [Path.resolve()] makes it absolute. *)

Inductive node : Type :=
| File (content : list byte)
| Dir (entries : list (string * node)).

Definition Path := list string.

Module Fs.

Fixpoint entry (name : string) (entries : list (string * node)) : option node :=
  match entries with
  | [] => None
  | (k, n) :: rest => if String.eqb k name then Some n else entry name rest
  end.

Fixpoint set_entry (name : string) (n : node) (entries : list (string * node))
  : list (string * node) :=
  match entries with
  | [] => [(name, n)]
  | (k, n') :: rest =>
      if String.eqb k name then (k, n) :: rest else (k, n') :: set_entry name n rest
  end.

Fixpoint remove_entry (name : string) (entries : list (string * node))
  : list (string * node) :=
  match entries with
  | [] => []
  | (k, n') :: rest =>
      if String.eqb k name
      then remove_entry name rest
      else (k, n') :: remove_entry name rest
  end.

Fixpoint lookup (root : node) (p : Path) : option node :=
  match p with
  | [] => Some root
  | name :: p' =>
      match root with
      | Dir entries =>
          match entry name entries with
          | Some child => lookup child p'
          | None => None
          end
      | File _ => None
      end
  end.

Definition os_error (text : string) : exn := mkExn OSError text.

(** [p.mkdir(parents=True, exist_ok=True)]: missing directories along [p]
    are created; a regular file on the way is an error. *)
Fixpoint mkdir_p (root : node) (p : Path) : result node :=
  match root with
  | File _ =>
      match p with
      | [] => Raise (os_error "[Errno 17] File exists")
      | _ :: _ => Raise (os_error "[Errno 20] Not a directory")
      end
  | Dir entries =>
      match p with
      | [] => Ok root
      | name :: p' =>
          let child :=
            match entry name entries with
            | Some c => c
            | None => Dir []
            end in
          match mkdir_p child p' with
          | Ok child' => Ok (Dir (set_entry name child' entries))
          | Raise e => Raise e
          end
      end
  end.

(** Replace, create or delete the entry named by the last segment of [p]
    inside its parent directory, which must exist. *)
Fixpoint alter (f : option node -> result (option node)) (root : node) (p : Path)
  : result node :=
  match root, p with
  | _, [] => Raise (os_error "[Errno 21] Is a directory")
  | File _, _ :: _ => Raise (os_error "[Errno 20] Not a directory")
  | Dir entries, [name] =>
      match f (entry name entries) with
      | Ok (Some n) => Ok (Dir (set_entry name n entries))
      | Ok None => Ok (Dir (remove_entry name entries))
      | Raise e => Raise e
      end
  | Dir entries, name :: p' =>
      match entry name entries with
      | Some child =>
          match alter f child p' with
          | Ok child' => Ok (Dir (set_entry name child' entries))
          | Raise e => Raise e
          end
      | None => Raise (os_error "[Errno 2] No such file or directory")
      end
  end.

(** [open(p, 'wb')]: the file is created, or truncated when it exists. *)
Definition create (root : node) (p : Path) : result node :=
  alter (fun old =>
           match old with
           | Some (Dir _) => Raise (os_error "[Errno 21] Is a directory")
           | _ => Ok (Some (File []))
           end) root p.

(** [f.write(chunk)] on the file opened at [p]. *)
Definition append (chunk : list byte) (root : node) (p : Path) : result node :=
  alter (fun old =>
           match old with
           | Some (File content) => Ok (Some (File (content ++ chunk)))
           | _ => Raise (os_error "[Errno 9] Bad file descriptor")
           end) root p.

(** [p.unlink()]. *)
Definition unlink (root : node) (p : Path) : result node :=
  alter (fun old =>
           match old with
           | Some (File _) => Ok None
           | Some (Dir _) => Raise (os_error "[Errno 21] Is a directory")
           | None => Raise (os_error "[Errno 2] No such file or directory")
           end) root p.

Definition parent (p : Path) : Path := removelast p.

(** The bytes a regular file at [p] occupies. *)
Definition file_size (root : node) (p : Path) : Z :=
  match lookup root p with
  | Some (File content) => Z.of_nat (length content)
  | _ => 0%Z
  end.

Definition is_file (root : node) (p : Path) : bool :=
  match lookup root p with
  | Some (File _) => true
  | _ => false
  end.

End Fs.

(** ** The network

    A request is identified by the endpoint and the values formatted into
    its URL.  [GetProjects], [GetProjectFiles] and [GetFileDetails] go
    through the authenticated session, [GetDownload] is the plain
    [requests.get] of [download_file]. *)

Inductive request : Type :=
| GetProjects
| GetProjectFiles (project_id : json)
| GetFileDetails (project_id branch_id file_id : json)
| GetDownload (download_url : string).

(** A response: its status, the value [response.json()] decodes ([None]
    when the body is not JSON), the chunks [iter_content] yields, and the
    error, if any, that interrupts the stream after them. *)
Record response : Type := mkResponse {
  status_code : Z;
  json_body : option json;
  chunks : list (list byte);
  stream_error : option string
}.

Inductive net_result : Type :=
| ConnectionFailed (text : string)
| Responded (r : response).

(** ** Statistics (lines 52-59) *)

Record Stats : Type := mkStats {
  projects_processed : Z;
  files_found : Z;
  files_downloaded : Z;
  files_skipped : Z;
  download_errors : Z;
  total_bytes_downloaded : Z
}.

Definition initial_stats : Stats := mkStats 0 0 0 0 0 0.

(** ** The state a method call can read and change

    [w_net] answers a request given the requests made so far; [w_free] is
    the space left on the disk; [w_dir_size] is what [stat().st_size]
    reports for a directory on this platform. *)

Record world : Type := mkWorld {
  w_root : node;
  w_free : Z;
  w_dir_size : Z;
  w_net : list request -> request -> net_result;
  w_log : list request;
  w_stats : Stats
}.

Definition set_root (root : node) (w : world) : world :=
  mkWorld root (w_free w) (w_dir_size w) (w_net w) (w_log w) (w_stats w).

Definition set_free (free : Z) (w : world) : world :=
  mkWorld (w_root w) free (w_dir_size w) (w_net w) (w_log w) (w_stats w).

Definition set_log (log : list request) (w : world) : world :=
  mkWorld (w_root w) (w_free w) (w_dir_size w) (w_net w) log (w_stats w).

Definition set_stats (stats : Stats) (w : world) : world :=
  mkWorld (w_root w) (w_free w) (w_dir_size w) (w_net w) (w_log w) stats.

(** ** The monad of method bodies: state, and exceptions that keep it *)

Definition M (A : Type) : Type := world -> result A * world.

Definition ret {A} (a : A) : M A := fun w => (Ok a, w).

Definition raise {A} (e : exn) : M A := fun w => (Raise e, w).

Definition bind {A B} (m : M A) (k : A -> M B) : M B :=
  fun w =>
    match m w with
    | (Ok a, w') => k a w'
    | (Raise e, w') => (Raise e, w')
    end.

(** [try: body except <classes accepted by catches> as e: handler e]. *)
Definition try_except {A} (body : M A) (catches : exn -> bool) (handler : exn -> M A)
  : M A :=
  fun w =>
    match body w with
    | (Ok a, w') => (Ok a, w')
    | (Raise e, w') => if catches e then handler e w' else (Raise e, w')
    end.

Definition lift {A} (r : result A) : M A := fun w => (r, w).

Definition get_world : M world := fun w => (Ok w, w).

Definition modify (f : world -> world) : M unit := fun w => (Ok tt, f w).

Declare Scope py_scope.
Delimit Scope py_scope with py.

Notation "x <- m ;; k" := (bind m (fun x => k))
  (at level 100, m at next level, right associativity) : py_scope.
Notation "m ;;; k" := (bind m (fun _ => k))
  (at level 100, right associativity) : py_scope.

Local Open Scope py_scope.

Definition any_Exception (e : exn) : bool := true.

(** ** Primitive effects *)

Definition request_error (text : string) : exn := mkExn RequestException text.

(** [session.get(url)] and [requests.get(url, stream=True, timeout=300)]:
    the request is logged and the network answers. *)
Definition send (r : request) : M response :=
  fun w =>
    let w' := set_log (w_log w ++ [r]) w in
    match w_net w (w_log w) r with
    | ConnectionFailed text => (Raise (request_error text), w')
    | Responded resp => (Ok resp, w')
    end.

(** [response.raise_for_status()]: [HTTPError] for a 4xx or 5xx status. *)
Definition raise_for_status (resp : response) : M unit :=
  if ((400 <=? status_code resp) && (status_code resp <? 600))%Z
  then raise (request_error "HTTPError")
  else ret tt.

(** [response.json()]. *)
Definition response_json (resp : response) : M json :=
  match json_body resp with
  | Some v => ret v
  | None => raise (request_error "JSONDecodeError")
  end.

Definition path_mkdir (p : Path) : M unit :=
  fun w =>
    match Fs.mkdir_p (w_root w) p with
    | Ok root' => (Ok tt, set_root root' w)
    | Raise e => (Raise e, w)
    end.

Definition path_exists (p : Path) : M bool :=
  fun w =>
    match Fs.lookup (w_root w) p with
    | Some _ => (Ok true, w)
    | None => (Ok false, w)
    end.

Definition path_st_size (p : Path) : M Z :=
  fun w =>
    match Fs.lookup (w_root w) p with
    | Some (File content) => (Ok (Z.of_nat (length content)), w)
    | Some (Dir _) => (Ok (w_dir_size w), w)
    | None => (Raise (Fs.os_error "[Errno 2] No such file or directory"), w)
    end.

Definition open_wb (p : Path) : M unit :=
  fun w =>
    match Fs.create (w_root w) p with
    | Ok root' =>
        (Ok tt, set_free (w_free w + Fs.file_size (w_root w) p)%Z (set_root root' w))
    | Raise e => (Raise e, w)
    end.

Definition file_write (p : Path) (chunk : list byte) : M unit :=
  fun w =>
    let n := Z.of_nat (length chunk) in
    if (n <=? w_free w)%Z
    then
      match Fs.append chunk (w_root w) p with
      | Ok root' => (Ok tt, set_free (w_free w - n)%Z (set_root root' w))
      | Raise e => (Raise e, w)
      end
    else (Raise (Fs.os_error "[Errno 28] No space left on device"), w).

Definition path_unlink (p : Path) : M unit :=
  fun w =>
    match Fs.unlink (w_root w) p with
    | Ok root' =>
        (Ok tt, set_free (w_free w + Fs.file_size (w_root w) p)%Z (set_root root' w))
    | Raise e => (Raise e, w)
    end.

Definition update_stats (f : Stats -> Stats) : M unit :=
  modify (fun w => set_stats (f (w_stats w)) w).

Definition incr_projects_processed (s : Stats) : Stats :=
  mkStats (projects_processed s + 1) (files_found s) (files_downloaded s)
          (files_skipped s) (download_errors s) (total_bytes_downloaded s).

Definition incr_files_downloaded (s : Stats) : Stats :=
  mkStats (projects_processed s) (files_found s) (files_downloaded s + 1)
          (files_skipped s) (download_errors s) (total_bytes_downloaded s).

Definition incr_files_skipped (s : Stats) : Stats :=
  mkStats (projects_processed s) (files_found s) (files_downloaded s)
          (files_skipped s + 1) (download_errors s) (total_bytes_downloaded s).

Definition incr_download_errors (s : Stats) : Stats :=
  mkStats (projects_processed s) (files_found s) (files_downloaded s)
          (files_skipped s) (download_errors s + 1) (total_bytes_downloaded s).

Definition add_total_bytes (n : Z) (s : Stats) : Stats :=
  mkStats (projects_processed s) (files_found s) (files_downloaded s)
          (files_skipped s) (download_errors s) (total_bytes_downloaded s + n).

(** ** [BildAPIClient.__init__] (lines 30-59) *)

Definition BildAPIClient_init (backup_location : Path) : M unit :=
  path_mkdir backup_location ;;;
  update_stats (fun _ => initial_stats).

(** ** [get_projects] (lines 61-89) and [get_project_files] (lines 91-121) *)

(** The three branches on the shape of the decoded payload. *)
Definition select_payload (data : json) : json :=
  if Py.is_list data then data
  else
    match data with
    | JDict fields =>
        if Py.dict_has "data" fields
        then Py.dict_get_default "data" JNull fields
        else data
    | _ => data
    end.

Definition get_projects : M json :=
  try_except
    (response <- send GetProjects ;;
     raise_for_status response ;;;
     projects_data <- response_json response ;;
     ret (select_payload projects_data))
    is_RequestException
    (fun _ => ret (JList [])).

Definition get_project_files (project_id : json) : M json :=
  try_except
    (response <- send (GetProjectFiles project_id) ;;
     raise_for_status response ;;;
     files_data <- response_json response ;;
     ret (select_payload files_data))
    is_RequestException
    (fun _ => ret (JList [])).

(** ** [create_project_directory] (lines 175-188) *)

(** [re.sub] accepts a string only. *)
Definition sanitize_value (v : json) : M string :=
  match v with
  | JStr s => ret (sanitize_filename s)
  | _ => raise (mkExn TypeError "expected string or bytes-like object")
  end.

Definition create_project_directory (backup_location : Path) (project_name : json)
  : M Path :=
  sanitized_name <- sanitize_value project_name ;;
  let project_dir := backup_location ++ [sanitized_name] in
  path_mkdir project_dir ;;;
  ret project_dir.

(** ** [download_file] (lines 190-251) *)

(** The loop over [iter_content]: empty chunks are skipped, the others are
    written and counted. *)
Fixpoint write_chunks (file_path : Path) (stream : list (list byte)) (total_size : Z)
  : M Z :=
  match stream with
  | [] => ret total_size
  | chunk :: rest =>
      match chunk with
      | [] => write_chunks file_path rest total_size
      | _ :: _ =>
          file_write file_path chunk ;;;
          write_chunks file_path rest (total_size + Z.of_nat (length chunk))
      end
  end.

(** The end of the stream: a clean end, or the error that cut it short. *)
Definition end_of_stream (resp : response) : M unit :=
  match stream_error resp with
  | Some text => raise (request_error text)
  | None => ret tt
  end.

(** Lines 203-234: the body of the [try]. *)
Definition download_attempt (download_url : string) (file_path : Path) : M bool :=
  path_mkdir (Fs.parent file_path) ;;;
  present <- path_exists file_path ;;
  has_content <- (if present
                  then (size <- path_st_size file_path ;; ret (0 <? size)%Z)
                  else ret false) ;;
  if has_content
  then
    update_stats incr_files_skipped ;;;
    ret true
  else
    download_response <- send (GetDownload download_url) ;;
    raise_for_status download_response ;;;
    open_wb file_path ;;;
    total_size <- write_chunks file_path (chunks download_response) 0 ;;
    end_of_stream download_response ;;;
    update_stats incr_files_downloaded ;;;
    update_stats (add_total_bytes total_size) ;;;
    ret true.

(** Lines 236-247: [except requests.exceptions.RequestException]. *)
Definition on_request_exception (file_path : Path) : M bool :=
  update_stats incr_download_errors ;;;
  present <- path_exists file_path ;;
  (if present
   then try_except (path_unlink file_path) any_Exception (fun _ => ret tt)
   else ret tt) ;;;
  ret false.

(** Lines 248-251: [except Exception]. *)
Definition on_other_exception : M bool :=
  update_stats incr_download_errors ;;;
  ret false.

(** [file_name] is the name shown in the messages; nothing else uses it. *)
Definition download_file (download_url : string) (file_path : Path) (file_name : string)
  : M bool :=
  try_except
    (download_attempt download_url file_path)
    any_Exception
    (fun e =>
       if is_RequestException e
       then on_request_exception file_path
       else on_other_exception).

(** ** [backup_all_projects] (lines 279-376) *)

Record project_info : Type := mkProjectInfo {
  pi_id : json;
  pi_name : json;
  pi_branch_id : json;
  pi_files : list json;
  pi_status : string
}.

Definition set_status (status : string) (info : project_info) : project_info :=
  mkProjectInfo (pi_id info) (pi_name info) (pi_branch_id info) (pi_files info) status.

Definition set_files (files : list json) (info : project_info) : project_info :=
  mkProjectInfo (pi_id info) (pi_name info) (pi_branch_id info) files (pi_status info).

(** The dictionary the method returns; ['statistics'] stays the empty
    dictionary ([None]) on the early return.  The ['backup_timestamp'] entry,
    read from the clock, is left out. *)
Record backup_summary : Type := mkSummary {
  bs_backup_location : Path;
  bs_projects : list project_info;
  bs_statistics : option Stats
}.

(** [try: r = m except Exception as e: ...] with the outcome made a value. *)
Definition attempt {A} (m : M A) : M (result A) :=
  fun w => let '(r, w') := m w in (Ok r, w').

(** [sum(1 for f in processed_files if f.get('download_successful', False))]. *)
Fixpoint count_successful (processed_files : list json) : result Z :=
  match processed_files with
  | [] => Ok 0%Z
  | f :: rest =>
      match Py.get f "download_successful" (JBool false) with
      | Ok flag =>
          match count_successful rest with
          | Ok n => Ok (if Py.truthy flag then n + 1 else n)%Z
          | Raise e => Raise e
          end
      | Raise e => Raise e
      end
  end.

Section Orchestrator.

(** What [self.process_files_structure] resolves to.  The class of
    [src/bildBackup.py] defines no such method; see
    [absent_process_files_structure] below. *)
Variable process_files_structure : json -> Path -> json -> json -> M (list json).

Variable backup_location : Path.

(** Lines 352-367: the [try] block around the processing of the files. *)
Definition process_project_files (project_files : json) (project_dir : Path)
           (project_id branch_id : json) (info : project_info) : M project_info :=
  outcome <- attempt (process_files_structure project_files project_dir
                                              project_id branch_id) ;;
  match outcome with
  | Ok processed_files =>
      let info := set_status "completed" (set_files processed_files info) in
      update_stats incr_projects_processed ;;;
      match count_successful processed_files with
      | Ok _ => ret info
      | Raise e => ret (set_status ("error - " ++ exn_text e) info)
      end
  | Raise e => ret (set_status ("error - " ++ exn_text e) info)
  end.

(** Lines 341-367: the files of the project are listed and processed. *)
Definition backup_project_files (project_dir : Path) (project_id branch_id : json)
           (info : project_info) : M project_info :=
  project_files <- get_project_files project_id ;;
  if negb (Py.truthy project_files)
  then ret (set_status "no files" info)
  else process_project_files project_files project_dir project_id branch_id info.

(** Lines 309-369: the body of the loop over the projects.  Every path
    through it appends one [project_info] to the summary, which is the
    value returned here. *)
Definition backup_project (project : json) : M project_info :=
  project_id <- lift (Py.get project "id" (JStr "")) ;;
  project_name <- lift (Py.get project "name" (JStr "Unknown Project")) ;;
  default_branch <- lift (Py.get project "defaultBranch" (JDict [])) ;;
  let branch_id :=
    match default_branch with
    | JDict fields => Py.dict_get_default "id" (JStr "") fields
    | _ => JStr ""
    end in
  let info := mkProjectInfo project_id project_name branch_id [] "skipped" in
  if negb (Py.truthy project_id)
  then ret (set_status "error - no ID" info)
  else
    created <- attempt (create_project_directory backup_location project_name) ;;
    match created with
    | Raise e =>
        ret (set_status ("error - directory creation failed: " ++ exn_text e) info)
    | Ok project_dir => backup_project_files project_dir project_id branch_id info
    end.

Fixpoint backup_projects (projects : list json) : M (list project_info) :=
  match projects with
  | [] => ret []
  | project :: rest =>
      info <- backup_project project ;;
      infos <- backup_projects rest ;;
      ret (info :: infos)
  end.

Definition backup_all_projects : M backup_summary :=
  projects <- get_projects ;;
  if negb (Py.truthy projects)
  then ret (mkSummary backup_location [] None)
  else
    _ <- lift (Py.len projects) ;;
    items <- lift (Py.iter projects) ;;
    infos <- backup_projects items ;;
    w <- get_world ;;
    ret (mkSummary backup_location infos (Some (w_stats w))).

End Orchestrator.

(** The attribute lookup [self.process_files_structure] on an instance of
    the class as it stands in [src/bildBackup.py]. *)
Definition absent_process_files_structure
  : json -> Path -> json -> json -> M (list json) :=
  fun _ _ _ _ =>
    raise (mkExn AttributeError
                 "'BildAPIClient' object has no attribute 'process_files_structure'").

(** [main] (lines 530-534): the client is built, then the backup runs. *)
Definition run_backup (backup_location : Path) : M backup_summary :=
  BildAPIClient_init backup_location ;;;
  backup_all_projects absent_process_files_structure backup_location.

(** ** The two listing calls, seen together *)

Inductive listing : Type :=
| Projects
| ProjectFiles (project_id : json).

Definition listing_request (l : listing) : request :=
  match l with
  | Projects => GetProjects
  | ProjectFiles project_id => GetProjectFiles project_id
  end.

Definition listing_call (l : listing) : M json :=
  match l with
  | Projects => get_projects
  | ProjectFiles project_id => get_project_files project_id
  end.

(** The request [r], made in [w], ends in a transport error or in a status
    that [raise_for_status] rejects. *)
Definition request_fails (w : world) (r : request) : Prop :=
  match w_net w (w_log w) r with
  | ConnectionFailed _ => True
  | Responded resp => (400 <= status_code resp < 600)%Z
  end.

(** The world after the request [r] has been logged. *)
Definition logged (r : request) (w : world) : world :=
  set_log (w_log w ++ [r]) w.

(** ** Vocabulary of the specification *)

(** The counters of one run are consistent. *)
Definition stats_invariant (s : Stats) : Prop :=
  (files_downloaded s + files_skipped s + download_errors s <= files_found s)%Z.

(** A [FileNode] of the data model: a file, or a folder with its children
    in the order the API lists them. *)
Inductive FileNode : Type :=
| FileEntry (id name : string)
| FolderEntry (id name : string) (children : list FileNode).

(** The JSON object the API sends for a [FileNode]. *)
Fixpoint to_json (n : FileNode) : json :=
  match n with
  | FileEntry id name =>
      JDict [("id", JStr id); ("name", JStr name); ("type", JStr "file")]
  | FolderEntry id name children =>
      JDict [("id", JStr id); ("name", JStr name); ("type", JStr "folder");
             ("children", JList (map to_json children))]
  end.

(** The file nodes of a tree, depth first, siblings in listed order. *)
Fixpoint file_leaves (n : FileNode) : list FileNode :=
  match n with
  | FileEntry _ _ => [n]
  | FolderEntry _ _ children => flat_map file_leaves children
  end.

(** The number of nodes of type file in a tree. *)
Fixpoint count_files (n : FileNode) : nat :=
  match n with
  | FileEntry _ _ => 1
  | FolderEntry _ _ children => list_sum (map count_files children)
  end.

(** The relative path the specification gives a file: the names of the
    folders above it, then its own name. *)
Definition relative_path (ancestors : list string) (name : string) : string :=
  String.concat "/" (ancestors ++ [name]).

Fixpoint expected_paths (ancestors : list string) (n : FileNode) : list string :=
  match n with
  | FileEntry _ name => [relative_path ancestors name]
  | FolderEntry _ name children =>
      flat_map (expected_paths (ancestors ++ [name])) children
  end.

(** Every text the status ['error ...'] can hold starts with this word. *)
Definition is_error_status (status : string) : bool :=
  String.prefix "error" status.

(** ** Further vocabulary and the inputs of the examples *)

Definition valid_char (c : PyStr.code) : Prop := is_invalid_char c = false.

(** A code point a character of a [string] can stand for. *)
Definition latin1 (c : PyStr.code) : Prop := (c < 256)%N.

(** What [sanitize_filename] keeps of the name before it looks at the
    length: illegal characters replaced, dots and spaces trimmed. *)
Definition cleaned_chars (name : PyStr.chars) : PyStr.chars :=
  PyStr.strip (PyStr.of_string ". ") (replace_invalid name).

Definition cleaned (filename : string) : PyStr.chars :=
  cleaned_chars (PyStr.of_string filename).

(** The extension [os.path.splitext] finds in the cleaned name, and the
    one it finds in the name as given. *)
Definition cleaned_extension (name : PyStr.chars) : PyStr.chars :=
  snd (OsPath.splitext (cleaned_chars name)).

Definition original_extension (name : PyStr.chars) : PyStr.chars :=
  snd (OsPath.splitext name).

(** A name of 302 characters whose extension has 301 of them. *)
Definition long_extension_name : PyStr.chars :=
  PyStr.of_string "a." ++ repeat (PyStr.code_of "b"%char) 300.

(** 200 times the letter e with acute accent, U+00E9: 400 bytes. *)
Definition accented_name : PyStr.chars := repeat 233%N 200.

(** 300 spaces and then [.txt]. *)
Definition padded_name : PyStr.chars :=
  repeat (PyStr.code_of " "%char) 300 ++ PyStr.of_string ".txt".

(** A stem of 300 times the character U+65E5 (three bytes each) and the
    extension [.step]. *)
Definition long_stem_name : PyStr.chars :=
  repeat 26085%N 300 ++ PyStr.of_string ".step".

(** The sum the invariant of the statistics bounds by [files_found]. *)
Definition counted (s : Stats) : Z :=
  (files_downloaded s + files_skipped s + download_errors s)%Z.

(** A file with content is at [p]. *)
Definition has_content (w : world) (p : Path) : Prop :=
  exists content,
    Fs.lookup (w_root w) p = Some (File content) /\ content <> [].

(** [w] is the state an earlier call of [download_file] on [p] left after
    it downloaded at least one byte. *)
Definition after_download (p : Path) (w : world) : Prop :=
  exists download_url file_name w0,
    download_file download_url p file_name w0 = (Ok true, w)
    /\ files_downloaded (w_stats w) = (files_downloaded (w_stats w0) + 1)%Z
    /\ (total_bytes_downloaded (w_stats w0) < total_bytes_downloaded (w_stats w))%Z.

(** *** The end-to-end scenario: two projects, the first with three files
    of which one lies in a subfolder, the second with none. *)

Definition json_response (v : json) : response := mkResponse 200 (Some v) [] None.

Definition project_alpha : json :=
  JDict [("id", JStr "p1"); ("name", JStr "Alpha");
         ("defaultBranch", JDict [("id", JStr "b1")])].

Definition project_beta : json :=
  JDict [("id", JStr "p2"); ("name", JStr "Beta");
         ("defaultBranch", JDict [("id", JStr "b2")])].

Definition alpha_files : list FileNode :=
  [FileEntry "f1" "a.txt"; FileEntry "f2" "b.txt";
   FolderEntry "d1" "sub" [FileEntry "f3" "c.txt"]].

Definition file_body : list (list byte) := [[x41; x42; x43]].

Definition scenario_net (log : list request) (r : request) : net_result :=
  match r with
  | GetProjects => Responded (json_response (JList [project_alpha; project_beta]))
  | GetProjectFiles project_id =>
      if Py.eq_str project_id "p1"
      then Responded (json_response (JDict [("data", JList (map to_json alpha_files))]))
      else Responded (json_response (JList []))
  | GetFileDetails _ _ _ =>
      Responded (json_response
                   (JDict [("data", JDict [("downloadUrl", JStr "https://files.test/blob")])]))
  | GetDownload _ => Responded (mkResponse 200 None file_body None)
  end.

Definition scenario_world : world :=
  mkWorld (Dir []) 1000000 4096 scenario_net [] initial_stats.

Definition scenario_location : Path := ["bild_backup"].

Definition missing_method_text : string :=
  "'BildAPIClient' object has no attribute 'process_files_structure'".

(** *** Single downloads *)

Definition a_txt : Path := ["bild_backup"; "Alpha"; "a.txt"].

(** [a.txt] is already there, with three bytes. *)
Definition populated_world : world :=
  mkWorld (Dir [("bild_backup", Dir [("Alpha", Dir [("a.txt", File [x41; x42; x43])])])])
          1000000 4096 scenario_net [] initial_stats.

(** The body comes in two chunks of three bytes and the disk has room for
    four bytes. *)
Definition two_chunks_net (log : list request) (r : request) : net_result :=
  Responded (mkResponse 200 None [[x41; x42; x43]; [x44; x45; x46]] None).

Definition full_disk_world : world :=
  mkWorld (Dir [("bild_backup", Dir [])]) 4 4096 two_chunks_net [] initial_stats.

(** The listing endpoints answer 503. *)
Definition unavailable_net (log : list request) (r : request) : net_result :=
  Responded (mkResponse 503 None [] None).

Definition unavailable_world : world :=
  mkWorld (Dir []) 1000000 4096 unavailable_net [] initial_stats.

(** The listing endpoints answer with an object that has no ['data']. *)
Definition bare_object : list (string * json) :=
  [("message", JStr "ok"); ("count", JNum 0)].

Definition bare_object_net (log : list request) (r : request) : net_result :=
  Responded (json_response (JDict bare_object)).

Definition bare_object_world : world :=
  mkWorld (Dir []) 1000000 4096 bare_object_net [] initial_stats.

Definition blob_url : string := "https://files.test/blob".

(** A fresh client, then one call of [download_file]. *)
Definition init_then_download (file_path : Path) : M bool :=
  BildAPIClient_init scenario_location ;;;
  download_file blob_url file_path "a.txt".

(** The disk before the first download of [a.txt]. *)
Definition empty_backup_world : world :=
  mkWorld (Dir [("bild_backup", Dir [])]) 1000000 4096 scenario_net [] initial_stats.

(** *** What the loop over the projects records

    [failure_recorded] relates a project object, the state in which its
    turn starts and the entry the loop files for it, for the three causes
    of a project error: no id, the project directory cannot be created,
    the processing of the files raises. *)
Definition failure_recorded
           (process_files_structure : json -> Path -> json -> json -> M (list json))
           (backup_location : Path) (fields : list (string * json))
           (w : world) (info : project_info) : Prop :=
  let project_id := Py.dict_get_default "id" (JStr "") fields in
  let project_name := Py.dict_get_default "name" (JStr "Unknown Project") fields in
  let branch_id :=
    match Py.dict_get_default "defaultBranch" (JDict []) fields with
    | JDict branch => Py.dict_get_default "id" (JStr "") branch
    | _ => JStr ""
    end in
  (Py.truthy project_id = false -> pi_status info = "error - no ID")
  /\ (Py.truthy project_id = true ->
      forall e w1,
        create_project_directory backup_location project_name w = (Raise e, w1) ->
        pi_status info
        = ("error - directory creation failed: " ++ exn_text e)%string)
  /\ (Py.truthy project_id = true ->
      forall project_dir w1 project_files w2 e w3,
        create_project_directory backup_location project_name w = (Ok project_dir, w1) ->
        get_project_files project_id w1 = (Ok project_files, w2) ->
        Py.truthy project_files = true ->
        process_files_structure project_files project_dir project_id branch_id w2
        = (Raise e, w3) ->
        pi_status info = ("error - " ++ exn_text e)%string).

(** The loop went through all the projects, one entry each, every entry
    filed by [backup_project] in the state the previous project left. *)
Inductive isolated
          (process_files_structure : json -> Path -> json -> json -> M (list json))
          (backup_location : Path)
  : list json -> world -> list project_info -> world -> Prop :=
| isolated_nil (w : world) :
    isolated process_files_structure backup_location [] w [] w
| isolated_cons (fields : list (string * json)) (rest : list json)
                (w w1 w2 : world) (info : project_info) (infos : list project_info) :
    backup_project process_files_structure backup_location (JDict fields) w
    = (Ok info, w1) ->
    failure_recorded process_files_structure backup_location fields w info ->
    isolated process_files_structure backup_location rest w1 infos w2 ->
    isolated process_files_structure backup_location
             (JDict fields :: rest) w (info :: infos) w2.

(** ** [get_file_details] (lines 123-153) *)

(** The two branches on the shape of the decoded payload (lines 143-147):
    unlike the listing calls, a list is not tested for. *)
Definition select_details (file_data : json) : json :=
  match file_data with
  | JDict fields =>
      if Py.dict_has "data" fields
      then Py.dict_get_default "data" JNull fields
      else file_data
  | _ => file_data
  end.

Definition get_file_details (project_id branch_id file_id : json) : M json :=
  try_except
    (response <- send (GetFileDetails project_id branch_id file_id) ;;
     raise_for_status response ;;;
     file_data <- response_json response ;;
     ret (select_details file_data))
    is_RequestException
    (fun _ => ret (JDict [])).

(** ** Vocabulary of the further properties *)

(** The two characters [strip('. ')] removes. *)
Definition trimmed_chars : PyStr.chars := PyStr.of_string ". ".

(** A name neither starts nor ends with a character of [set]. *)
Definition trimmed (set : PyStr.chars) (l : PyStr.chars) : Prop :=
  (forall c rest, l = c :: rest -> PyStr.mem c set = false)
  /\ (forall c front, l = front ++ [c] -> PyStr.mem c set = false).

(** A name [sanitize_filename] has nothing to do on: no illegal character,
    nothing to trim, not empty, at most 255 characters. *)
Definition clean_name (name : string) : Prop :=
  Forall valid_char (PyStr.of_string name)
  /\ trimmed trimmed_chars (PyStr.of_string name)
  /\ name <> ""
  /\ String.length name <= 255.

(** A request of one of the two listing endpoints. *)
Definition is_listing_request (r : request) : bool :=
  match r with
  | GetProjects | GetProjectFiles _ => true
  | _ => false
  end.

(** A record of type file, as [process_item] tests it. *)
Definition is_file_record (v : json) : bool :=
  match v with
  | JDict fields => Py.eq_str (Py.dict_get_default "type" JNull fields) "file"
  | _ => false
  end.

(** The bytes of a streamed body that reach the file: all chunks, in
    order. *)
Definition body_bytes (resp : response) : list byte := concat (chunks resp).

(** Nothing with content is at [p]: [download_file] will not skip. *)
Definition nothing_to_skip (w : world) (p : Path) : Prop :=
  match Fs.lookup (w_root w) p with
  | Some (File content) => content = []
  | Some (Dir _) => (w_dir_size w <= 0)%Z
  | None => True
  end.

(** Between [w] and [w'] no counter changed, only listing requests were
    sent, and every regular file stayed what it was. *)
Definition quiet (w w' : world) : Prop :=
  w_stats w' = w_stats w
  /\ (exists added,
         w_log w' = w_log w ++ added /\ forallb is_listing_request added = true)
  /\ (forall p content,
         Fs.lookup (w_root w') p = Some (File content)
         <-> Fs.lookup (w_root w) p = Some (File content)).

(** Every regular file other than the one at [p] is in [w'] what it was in
    [w]. *)
Definition only_touches (p : Path) (w w' : world) : Prop :=
  forall q, q <> p ->
    forall content,
      Fs.lookup (w_root w') q = Some (File content)
      <-> Fs.lookup (w_root w) q = Some (File content).

(** A computation that relates every state to the state it leaves. *)
Definition keeps {A} (R : world -> world -> Prop) (m : M A) : Prop :=
  forall w, R w (snd (m w)).

(** What a path names is a regular file or nothing. *)
Definition not_dir (o : option node) : Prop :=
  match o with
  | Some (Dir _) => False
  | _ => True
  end.

(** Every record of [l] is of type file. *)
Definition only_files (l : list json) : Prop :=
  Forall (fun r => is_file_record r = true) l.

(** What flattening keeps true, for an item and for the values it loops
    over, whatever the number of calls left. *)
Definition emits_files (v : json) : Prop :=
  (forall budget acc out,
      process_item budget v acc = Ok out -> only_files acc -> only_files out)
  /\ (forall budget acc out,
         for_each_in (process_item budget) (on_string budget) v acc = Ok out ->
         only_files acc -> only_files out).

(** The ways [process_item] treats an object: it appends it, it walks a
    list found in it, or it passes over it. *)
Inductive Shape : Type :=
| Emitted (item : json)
| Walked (below : list Shape)
| Dropped.

(** [item.get('type') == t]. *)
Definition has_type (t : string) (fields : list (string * json)) : bool :=
  Py.eq_str (Py.dict_get_default "type" JNull fields) t.

(** The objects of each shape, whatever other fields they have.  An object
    of type file is emitted.  An object of type folder with a list under
    ['children'], and an object that is neither of these and has a list
    under ['files'], is walked, and the items of that list have shapes in
    turn.  Every other object is dropped. *)
Inductive represents : Shape -> json -> Prop :=
| represents_file (fields : list (string * json)) :
    has_type "file" fields = true ->
    represents (Emitted (JDict fields)) (JDict fields)
| represents_folder (fields : list (string * json)) (below : list Shape)
                    (children : list json) :
    has_type "file" fields = false ->
    has_type "folder" fields = true ->
    Py.dict_get "children" fields = Some (JList children) ->
    Forall2 represents below children ->
    represents (Walked below) (JDict fields)
| represents_container (fields : list (string * json)) (below : list Shape)
                       (files : list json) :
    has_type "file" fields = false ->
    has_type "folder" fields && Py.dict_has "children" fields = false ->
    Py.dict_get "files" fields = Some (JList files) ->
    Forall2 represents below files ->
    represents (Walked below) (JDict fields)
| represents_other (fields : list (string * json)) :
    has_type "file" fields = false ->
    has_type "folder" fields && Py.dict_has "children" fields = false ->
    Py.dict_has "files" fields = false ->
    represents Dropped (JDict fields).

(** The objects emitted, depth first in listed order. *)
Fixpoint emitted (s : Shape) : list json :=
  match s with
  | Emitted item => [item]
  | Walked below => flat_map emitted below
  | Dropped => []
  end.

(** The nested calls of [process_item] an object of a shape needs. *)
Fixpoint shape_depth (s : Shape) : nat :=
  match s with
  | Walked below => S (list_max (map shape_depth below))
  | _ => 1
  end.

(** The outcome of [process_item] on an object: what it emits, after what
    was there, when the calls left suffice for its depth, and
    [RecursionError] otherwise. *)
Definition walk_outcome (budget : nat) (depth : nat) (acc : list json)
           (files : list json) : result (list json) :=
  if (depth <=? budget)%nat
  then Ok (acc ++ files)%list
  else Raise recursion_error.

(** *** Inputs of the further examples *)

(** An empty [a.txt] is in place and the server answers 503. *)
Definition empty_file_world : world :=
  mkWorld (Dir [("bild_backup", Dir [("Alpha", Dir [("a.txt", File [])])])])
          1000000 4096 unavailable_net [] initial_stats.

Definition b_txt : Path := ["bild_backup"; "Alpha"; "b.txt"].

(** A processing method that answers with names instead of objects. *)
Definition names_only_structure : json -> Path -> json -> json -> M (list json) :=
  fun _ _ _ _ => ret [JStr "a.txt"].

Definition details_payload : json :=
  JDict [("data", JDict [("downloadUrl", JStr "https://files.test/blob")])].

(** *** The states of one run

    The calls [backup_all_projects] makes on the client, in the class as it
    stands: the listing of the projects (line 299), the creation of a
    project directory (line 333), the listing of the files of a project
    (line 342) and the call of the processing method (line 354). *)
Inductive run_op : Type :=
| OpListProjects
| OpCreateDirectory (project_name : json)
| OpListFiles (project_id : json)
| OpProcessFiles (project_files : json) (project_dir : Path)
                 (project_id branch_id : json).

(** The state an operation leaves, whether it returns or raises. *)
Definition perform (backup_location : Path) (op : run_op) (w : world) : world :=
  match op with
  | OpListProjects => snd (get_projects w)
  | OpCreateDirectory project_name =>
      snd (create_project_directory backup_location project_name w)
  | OpListFiles project_id => snd (get_project_files project_id w)
  | OpProcessFiles project_files project_dir project_id branch_id =>
      snd (absent_process_files_structure project_files project_dir
                                          project_id branch_id w)
  end.

(** The states of a run: the one the constructor leaves, and every state
    reached from there by a sequence of these operations. *)
Inductive run_state (backup_location : Path) : world -> Prop :=
| run_constructed (w w0 : world) :
    BildAPIClient_init backup_location w = (Ok tt, w0) ->
    run_state backup_location w0
| run_performed (w : world) (op : run_op) :
    run_state backup_location w ->
    run_state backup_location (perform backup_location op w).

(** A listing with a folder, an object of another type holding ['files'],
    an object of type file that has ['files'] of its own, a folder without
    ['children'] and an object without a type. *)
Definition listed_objects : list json :=
  [JDict [("type", JStr "folder"); ("name", JStr "docs");
          ("children",
           JList [JDict [("name", JStr "a.txt"); ("type", JStr "file")];
                  JDict [("type", JStr "folder"); ("name", JStr "empty")]])];
   JDict [("type", JStr "bundle");
          ("files",
           JList [JDict [("type", JStr "file"); ("files", JList [JNum 1])]])];
   JDict [("name", JStr "note")]].

Definition listed_shapes : list Shape :=
  [Walked [Emitted (JDict [("name", JStr "a.txt"); ("type", JStr "file")]);
           Dropped];
   Walked [Emitted (JDict [("type", JStr "file"); ("files", JList [JNum 1])])];
   Dropped].
(** * Properties *)

(** ** The model on small inputs *)

Example splitext_plain :
  OsPath.splitext (PyStr.of_string "archive.tar.gz")
  = (PyStr.of_string "archive.tar", PyStr.of_string ".gz").
Proof. reflexivity. Qed.

Example splitext_leading_dots :
  OsPath.splitext (PyStr.of_string "..profile") = (PyStr.of_string "..profile", []).
Proof. reflexivity. Qed.

Example splitext_dot_in_directory :
  OsPath.splitext (PyStr.of_string "v1.2/readme") = (PyStr.of_string "v1.2/readme", []).
Proof. reflexivity. Qed.

Example slice_to_negative :
  PyStr.slice_to (PyStr.of_string "abcdef") (-2) = PyStr.of_string "abcd"
  /\ PyStr.slice_to (PyStr.of_string "abc") (-46) = [].
Proof. split; reflexivity. Qed.

Example sanitize_plain : sanitize_filename "report.pdf" = "report.pdf".
Proof. reflexivity. Qed.

Example sanitize_illegal :
  sanitize_filename "a<b>:c/d\e|f?g*h.txt" = "a_b__c_d_e_f_g_h.txt".
Proof. reflexivity. Qed.

Example sanitize_strips_both_ends : sanitize_filename " .hidden. " = "hidden".
Proof. reflexivity. Qed.

Example sanitize_empty : sanitize_filename ".. ." = "unnamed_file".
Proof. reflexivity. Qed.

Example flatten_scenario_files :
  flatten_file_structure 2 (JList (map to_json alpha_files))
  = Ok [to_json (FileEntry "f1" "a.txt"); to_json (FileEntry "f2" "b.txt");
        to_json (FileEntry "f3" "c.txt")].
Proof. reflexivity. Qed.

Example flatten_files_key :
  flatten_file_structure 2
    (JList [JDict [("files", JList [to_json (FileEntry "f1" "a.txt")])]])
  = Ok [to_json (FileEntry "f1" "a.txt")].
Proof. reflexivity. Qed.

Example flatten_not_an_object :
  flatten_file_structure 2 (JList [JStr "a.txt"])
  = Raise (mkExn AttributeError "'str' object has no attribute 'get'").
Proof. reflexivity. Qed.

Example flatten_too_deep :
  flatten_file_structure 1 (JList (map to_json alpha_files)) = Raise recursion_error.
Proof. reflexivity. Qed.

Example mkdir_p_creates_parents :
  Fs.mkdir_p (Dir []) ["bild_backup"; "Alpha"]
  = Ok (Dir [("bild_backup", Dir [("Alpha", Dir [])])]).
Proof. reflexivity. Qed.

Example mkdir_p_file_in_the_way :
  Fs.mkdir_p (Dir [("bild_backup", File [])]) ["bild_backup"; "Alpha"]
  = Raise (Fs.os_error "[Errno 20] Not a directory").
Proof. reflexivity. Qed.

Example first_download_writes_the_body :
  let '(outcome, w) := download_file blob_url a_txt "a.txt" empty_backup_world in
  outcome = Ok true
  /\ Fs.lookup (w_root w) a_txt = Some (File [x41; x42; x43])
  /\ w_log w = [GetDownload blob_url]
  /\ w_stats w = mkStats 0 0 1 0 0 3.
Proof. vm_compute. repeat split. Qed.


(** ** Strings *)

Section StringFacts.

Lemma to_string_length (l : PyStr.chars) :
  String.length (PyStr.to_string l) = length l.
Proof.
  unfold PyStr.to_string.
  induction l as [| c l IH]; simpl; [reflexivity | now rewrite IH].
Qed.

Lemma to_string_app (a b : PyStr.chars) :
  PyStr.to_string (a ++ b) = (PyStr.to_string a ++ PyStr.to_string b)%string.
Proof.
  unfold PyStr.to_string.
  induction a as [| c a IH]; simpl; [reflexivity | now rewrite IH].
Qed.

Lemma of_string_length (s : string) :
  length (PyStr.of_string s) = String.length s.
Proof.
  unfold PyStr.of_string.
  induction s as [| c s IH]; simpl; [reflexivity | now rewrite IH].
Qed.

Lemma of_string_latin1 (s : string) : Forall latin1 (PyStr.of_string s).
Proof.
  unfold PyStr.of_string.
  induction s as [| c s IH]; simpl; constructor; [| exact IH].
  apply N_ascii_bounded.
Qed.

Lemma to_of_string (s : string) : PyStr.to_string (PyStr.of_string s) = s.
Proof.
  unfold PyStr.to_string, PyStr.of_string, PyStr.code_of.
  induction s as [| c s IH]; simpl; [reflexivity |].
  now rewrite ascii_N_embedding, IH.
Qed.

Lemma of_to_string (l : PyStr.chars) :
  Forall latin1 l -> PyStr.of_string (PyStr.to_string l) = l.
Proof.
  unfold PyStr.to_string, PyStr.of_string, PyStr.code_of.
  induction 1 as [| c l Hc Hl IH]; simpl; [reflexivity |].
  rewrite (N_ascii_embedding c Hc). f_equal. exact IH.
Qed.

Variable P : PyStr.code -> Prop.

Lemma Forall_firstn_chars (n : nat) (l : PyStr.chars) :
  Forall P l -> Forall P (firstn n l).
Proof.
  intros H. revert n.
  induction H as [| c l Hc Hl IH]; intros [| n]; simpl; auto.
Qed.

Lemma Forall_skipn_chars (n : nat) (l : PyStr.chars) :
  Forall P l -> Forall P (skipn n l).
Proof.
  intros H. revert n.
  induction H as [| c l Hc Hl IH]; intros [| n]; simpl; auto.
Qed.

Lemma lstrip_Forall (set l : PyStr.chars) :
  Forall P l -> Forall P (PyStr.lstrip set l).
Proof.
  induction 1 as [| c l Hc Hl IH]; simpl; [constructor |].
  destruct (PyStr.mem c set); auto.
Qed.

Lemma strip_Forall (set l : PyStr.chars) :
  Forall P l -> Forall P (PyStr.strip set l).
Proof.
  intros H. unfold PyStr.strip, PyStr.rstrip.
  apply Forall_rev, lstrip_Forall, Forall_rev, lstrip_Forall, H.
Qed.

Lemma slice_to_Forall (l : PyStr.chars) (k : Z) :
  Forall P l -> Forall P (PyStr.slice_to l k).
Proof.
  intros H. unfold PyStr.slice_to.
  destruct (k <? 0)%Z; now apply Forall_firstn_chars.
Qed.

End StringFacts.

Lemma slice_to_from (l : PyStr.chars) (k : Z) :
  PyStr.slice_to l k ++ PyStr.slice_from l k = l.
Proof.
  unfold PyStr.slice_to, PyStr.slice_from.
  destruct (k <? 0)%Z; apply firstn_skipn.
Qed.

(** [splitext] cuts its argument in two. *)
Lemma splitext_app (p root ext : PyStr.chars) :
  OsPath.splitext p = (root, ext) -> p = root ++ ext.
Proof.
  unfold OsPath.splitext.
  destruct (PyStr.rfind OsPath.sep p <? PyStr.rfind OsPath.extsep p)%Z.
  - destruct (OsPath.skip_leading_dots _ _ _); intros H; inversion H; subst.
    + symmetry. apply slice_to_from.
    + now rewrite app_nil_r.
  - intros H; inversion H; subst. now rewrite app_nil_r.
Qed.

Lemma replace_invalid_valid (l : PyStr.chars) :
  Forall valid_char (replace_invalid l).
Proof.
  induction l as [| c l IH]; simpl; constructor; auto.
  unfold valid_char. destruct (is_invalid_char c) eqn:E; [reflexivity | exact E].
Qed.

(** What holds of the underscore, of the placeholder and of every
    character of the name holds of every character of the output. *)
Lemma sanitize_chars_Forall (P : PyStr.code -> Prop) (filename : PyStr.chars) :
  Forall P (PyStr.of_string "unnamed_file") ->
  Forall P (replace_invalid filename) ->
  Forall P (sanitize_chars filename).
Proof.
  intros Hplace Hrep. unfold sanitize_chars.
  set (s := PyStr.strip _ (replace_invalid filename)).
  assert (Hs : Forall P s) by (apply strip_Forall, Hrep).
  assert (Ht : Forall P
                 (if (255 <? PyStr.len s)%Z
                  then let '(name, ext) := OsPath.splitext s in
                       PyStr.slice_to name (255 - PyStr.len ext) ++ ext
                  else s)).
  { destruct (255 <? PyStr.len s)%Z; [| exact Hs].
    destruct (OsPath.splitext s) as [name ext] eqn:E.
    apply splitext_app in E. rewrite E in Hs.
    apply Forall_app in Hs. destruct Hs as [Hn He].
    apply Forall_app. split; [now apply slice_to_Forall | exact He]. }
  destruct (if (255 <? PyStr.len s)%Z then _ else _) as [| c t]; [| exact Ht].
  exact Hplace.
Qed.

Lemma sanitize_chars_valid (filename : PyStr.chars) :
  Forall valid_char (sanitize_chars filename).
Proof.
  apply sanitize_chars_Forall; [repeat constructor | apply replace_invalid_valid].
Qed.

Lemma sanitize_chars_latin1 (filename : PyStr.chars) :
  Forall latin1 filename -> Forall latin1 (sanitize_chars filename).
Proof.
  intros H. apply sanitize_chars_Forall; [apply of_string_latin1 |].
  unfold replace_invalid. apply Forall_map.
  revert H. apply Forall_impl. intros c Hc.
  destruct (is_invalid_char c); [apply N_ascii_bounded | exact Hc].
Qed.

(** The characters of the output of [sanitize_filename] are those of the
    output of [sanitize_chars]. *)
Lemma sanitize_filename_chars (filename : string) :
  PyStr.of_string (sanitize_filename filename)
  = sanitize_chars (PyStr.of_string filename).
Proof.
  unfold sanitize_filename. apply of_to_string, sanitize_chars_latin1, of_string_latin1.
Qed.

Lemma sanitize_chars_nonempty (filename : PyStr.chars) :
  sanitize_chars filename <> [].
Proof.
  unfold sanitize_chars.
  destruct (if (255 <? _)%Z then _ else _); discriminate.
Qed.

(** ** [sanitize_filename] *)

(** C7. A name that contains characters of the illegal set comes out of
    [sanitize_filename] with none of them left, and not empty. *)
Theorem sanitize_filename_removes_illegal (filename : string) :
  (exists c, In c (PyStr.of_string filename) /\ is_invalid_char c = true) ->
  (forall c, In c (PyStr.of_string (sanitize_filename filename)) ->
             is_invalid_char c = false)
  /\ sanitize_filename filename <> "".
Proof.
  intros _. split.
  - intros c Hc. rewrite sanitize_filename_chars in Hc.
    pose proof (sanitize_chars_valid (PyStr.of_string filename)) as H.
    rewrite Forall_forall in H. now apply H.
  - unfold sanitize_filename. intros E.
    apply (f_equal String.length) in E. rewrite to_string_length in E.
    simpl in E. apply length_zero_iff_nil in E.
    now apply sanitize_chars_nonempty in E.
Qed.

Lemma sanitize_filename_removes_illegal_witness :
  (forall c, In c (PyStr.of_string (sanitize_filename "a<b>:c/d\e|f?g*h.txt")) ->
             is_invalid_char c = false)
  /\ sanitize_filename "a<b>:c/d\e|f?g*h.txt" <> "".
Proof.
  apply (sanitize_filename_removes_illegal "a<b>:c/d\e|f?g*h.txt").
  exists (PyStr.code_of "<"%char). split; [simpl; auto | reflexivity].
Defined.

(** The truncation, for any name: when the extension of the cleaned name
    has at most 255 characters, so has the output, which ends with it. *)
Lemma sanitize_chars_truncates (name : PyStr.chars) :
  length (cleaned_extension name) <= 255 ->
  length (sanitize_chars name) <= 255
  /\ exists stem, sanitize_chars name = stem ++ cleaned_extension name.
Proof.
  intros Hext.
  unfold cleaned_extension in *. unfold sanitize_chars.
  fold (cleaned_chars name).
  set (s := cleaned_chars name) in *.
  destruct (OsPath.splitext s) as [root ext] eqn:E.
  cbn [snd] in Hext.
  pose proof (splitext_app _ _ _ E) as Hs.
  destruct (255 <? PyStr.len s)%Z eqn:Hlen.
  - apply Z.ltb_lt in Hlen. unfold PyStr.len in *. cbv beta iota.
    assert (Hcut : PyStr.slice_to root (255 - Z.of_nat (length ext))
                   = firstn (255 - length ext) root).
    { unfold PyStr.slice_to.
      destruct (255 - Z.of_nat (length ext) <? 0)%Z eqn:Hneg.
      - apply Z.ltb_lt in Hneg. lia.
      - f_equal. lia. }
    rewrite Hcut.
    assert (Hroot : 255 - length ext <= length root).
    { rewrite Hs, length_app in Hlen. lia. }
    pose proof (firstn_length_le root Hroot) as Hfl.
    destruct (firstn (255 - length ext) root ++ ext) as [| c t] eqn:Hout.
    + apply (f_equal (@length _)) in Hout.
      rewrite length_app, Hfl in Hout. cbn [length] in Hout. lia.
    + rewrite <- Hout. split.
      * rewrite length_app, Hfl. lia.
      * now exists (firstn (255 - length ext) root).
  - apply Z.ltb_ge in Hlen. unfold PyStr.len in Hlen.
    destruct s as [| c t] eqn:Hs0.
    + destruct root; [| discriminate]. destruct ext; [| discriminate].
      split; [vm_compute; lia |].
      exists (PyStr.of_string "unnamed_file"). now rewrite app_nil_r.
    + split; [lia |]. now exists root.
Qed.




(** ** Flattening *)

(** The loop [for x in v] of [process_item] visits what Python iterates
    over: [for_each_in] only spells out what happens to the strings a dict
    or a string yields. *)
Lemma for_each_in_iter (budget : nat) (v : json) (acc : list json) :
  for_each_in (process_item budget) (on_string budget) v acc
  = match Py.iter v with
    | Ok items => for_each (process_item budget) items acc
    | Raise e => Raise e
    end.
Proof.
  destruct v as [| b | n | s | items | fields]; try reflexivity.
  - destruct s as [| c s]; [reflexivity |]. destruct budget; reflexivity.
  - destruct fields as [| [k v] rest]; [reflexivity |]. destruct budget; reflexivity.
Qed.

(** ** The file system *)

Lemma set_entry_same (name : string) (n : node) (entries : list (string * node)) :
  Fs.entry name entries = Some n -> Fs.set_entry name n entries = entries.
Proof.
  induction entries as [| [k n'] rest IH]; simpl; [discriminate |].
  destruct (String.eqb k name) eqn:E.
  - intros H; inversion H; subst. reflexivity.
  - intros H. now rewrite IH.
Qed.

Lemma entry_set_entry (name : string) (n : node) (entries : list (string * node)) :
  Fs.entry name (Fs.set_entry name n entries) = Some n.
Proof.
  induction entries as [| [k n'] rest IH]; simpl.
  - now rewrite String.eqb_refl.
  - destruct (String.eqb k name) eqn:E; simpl; rewrite E; [reflexivity | exact IH].
Qed.

(** When something exists at [p], the directories above it exist, and
    creating them again changes nothing. *)
Lemma mkdir_p_parent_existing (p : Path) :
  p <> [] ->
  forall root n,
    Fs.lookup root p = Some n -> Fs.mkdir_p root (Fs.parent p) = Ok root.
Proof.
  induction p as [| name p IH]; [congruence |].
  intros _ root n H. simpl in H.
  destruct root as [content | entries]; [discriminate |].
  destruct (Fs.entry name entries) as [child |] eqn:E; [| discriminate].
  destruct p as [| name' p'].
  - reflexivity.
  - change (Fs.parent (name :: name' :: p')) with (name :: Fs.parent (name' :: p')).
    pose proof (IH ltac:(discriminate) child n H) as Hrec.
    set (q := Fs.parent (name' :: p')) in *.
    cbn [Fs.mkdir_p]. rewrite E, Hrec.
    now rewrite set_entry_same.
Qed.

Lemma set_root_same (w : world) : set_root (w_root w) w = w.
Proof. destruct w; reflexivity. Qed.

(** ** [download_file]: the skip *)

Lemma download_file_skips (download_url : string) (file_path : Path)
      (file_name : string) (w : world) (content : list byte) :
  file_path <> [] ->
  Fs.lookup (w_root w) file_path = Some (File content) ->
  content <> [] ->
  download_file download_url file_path file_name w
  = (Ok true, set_stats (incr_files_skipped (w_stats w)) w).
Proof.
  intros Hp Hfile Hne.
  unfold download_file, download_attempt, try_except, bind, path_mkdir.
  rewrite (mkdir_p_parent_existing file_path Hp _ _ Hfile), set_root_same.
  unfold path_exists. rewrite Hfile.
  unfold path_st_size. rewrite Hfile.
  unfold ret.
  assert (Hsize : (0 <? Z.of_nat (length content))%Z = true).
  { apply Z.ltb_lt. destruct content; [congruence | simpl; lia]. }
  rewrite Hsize. reflexivity.
Qed.

Lemma entry_remove_entry (name : string) (entries : list (string * node)) :
  Fs.entry name (Fs.remove_entry name entries) = None.
Proof.
  induction entries as [| [k n'] rest IH]; simpl; [reflexivity |].
  destruct (String.eqb k name) eqn:E; simpl; [exact IH | now rewrite E].
Qed.

Lemma lookup_single (name : string) (entries : list (string * node)) :
  Fs.lookup (Dir entries) [name] = Fs.entry name entries.
Proof.
  simpl. destruct (Fs.entry name entries); reflexivity.
Qed.

Lemma alter_step (f : option node -> result (option node))
      (entries : list (string * node)) (name name' : string) (p' : Path) :
  Fs.alter f (Dir entries) (name :: name' :: p')
  = match Fs.entry name entries with
    | Some child =>
        match Fs.alter f child (name' :: p') with
        | Ok child' => Ok (Dir (Fs.set_entry name child' entries))
        | Raise e => Raise e
        end
    | None => Raise (Fs.os_error "[Errno 2] No such file or directory")
    end.
Proof. reflexivity. Qed.

Lemma lookup_step (entries : list (string * node)) (name : string) (p : Path) :
  Fs.lookup (Dir entries) (name :: p)
  = match Fs.entry name entries with
    | Some child => Fs.lookup child p
    | None => None
    end.
Proof. reflexivity. Qed.

(** [alter] applies [f] to what [p] names and leaves the answer there. *)
Lemma lookup_alter (f : option node -> result (option node)) (p : Path) :
  forall root root',
    Fs.alter f root p = Ok root' ->
    exists r, f (Fs.lookup root p) = Ok r /\ Fs.lookup root' p = r.
Proof.
  induction p as [| name p IH]; intros root root' H.
  - destruct root; discriminate.
  - destruct root as [content | entries]; [discriminate |].
    destruct p as [| name' p'].
    + cbn [Fs.alter] in H. rewrite lookup_single.
      destruct (f (Fs.entry name entries)) as [[n |] | e] eqn:Ef;
        inversion H; subst; clear H.
      * exists (Some n). split; [reflexivity |].
        rewrite lookup_single. apply entry_set_entry.
      * exists None. split; [reflexivity |].
        rewrite lookup_single. apply entry_remove_entry.
    + rewrite alter_step in H.
      destruct (Fs.entry name entries) as [child |] eqn:E; [| discriminate].
      destruct (Fs.alter f child (name' :: p')) as [child' | e] eqn:Ea;
        [| discriminate].
      inversion H; subst; clear H.
      destruct (IH _ _ Ea) as (r & Hf & Hl).
      exists r. split.
      * rewrite lookup_step, E. exact Hf.
      * rewrite lookup_step, entry_set_entry. exact Hl.
Qed.

(** [alter] succeeds below an existing parent when [f] does. *)
Lemma alter_existing (f : option node -> result (option node)) (p : Path) :
  p <> [] ->
  forall root n r,
    Fs.lookup root p = Some n -> f (Some n) = Ok r ->
    exists root', Fs.alter f root p = Ok root'.
Proof.
  induction p as [| name p IH]; [congruence |].
  intros _ root n r Hl Hf.
  destruct root as [content | entries]; [discriminate |].
  destruct p as [| name' p'].
  - rewrite lookup_single in Hl. cbn [Fs.alter]. rewrite Hl, Hf.
    destruct r; eexists; reflexivity.
  - rewrite lookup_step in Hl. rewrite alter_step.
    destruct (Fs.entry name entries) as [child |] eqn:E; [| discriminate].
    destruct (IH ltac:(discriminate) child n r Hl Hf) as (child' & Ha).
    rewrite Ha. eexists; reflexivity.
Qed.

Lemma create_lookup (root root' : node) (p : Path) :
  Fs.create root p = Ok root' -> Fs.lookup root' p = Some (File []).
Proof.
  intros H. apply lookup_alter in H. destruct H as (r & Hf & Hl).
  rewrite Hl. destruct (Fs.lookup root p) as [[c | es] |]; now inversion Hf.
Qed.

Lemma append_lookup (chunk : list byte) (root root' : node) (p : Path) :
  Fs.append chunk root p = Ok root' ->
  exists content,
    Fs.lookup root p = Some (File content)
    /\ Fs.lookup root' p = Some (File (content ++ chunk)).
Proof.
  intros H. apply lookup_alter in H. destruct H as (r & Hf & Hl).
  destruct (Fs.lookup root p) as [[c | es] |]; try discriminate.
  injection Hf as Hr. exists c. split; [reflexivity |].
  rewrite Hl. now symmetry.
Qed.

Lemma unlink_lookup (root root' : node) (p : Path) :
  Fs.unlink root p = Ok root' -> Fs.lookup root' p = None.
Proof.
  intros H. apply lookup_alter in H. destruct H as (r & Hf & Hl).
  rewrite Hl. destruct (Fs.lookup root p) as [[c | es] |]; now inversion Hf.
Qed.

Lemma unlink_existing_file (root : node) (p : Path) (content : list byte) :
  p <> [] ->
  Fs.lookup root p = Some (File content) ->
  exists root', Fs.unlink root p = Ok root'.
Proof.
  intros Hp Hl. unfold Fs.unlink.
  eapply alter_existing; [exact Hp | exact Hl | reflexivity].
Qed.

(** ** [download_file]: what a call does to the state *)

Lemma write_chunks_effect (p : Path) (stream : list (list byte)) :
  forall t w r w',
    write_chunks p stream t w = (r, w') ->
    w_stats w' = w_stats w /\ w_log w' = w_log w /\
    forall c, Fs.lookup (w_root w) p = Some (File c) ->
      exists c', Fs.lookup (w_root w') p = Some (File c')
        /\ match r with
           | Ok t' => (Z.of_nat (length c') = Z.of_nat (length c) + (t' - t))%Z
           | Raise _ => True
           end.
Proof.
  induction stream as [| chunk rest IH]; intros t w r w' H.
  - inversion H; subst. repeat split; auto.
    intros c Hc. exists c. split; [exact Hc | lia].
  - destruct chunk as [| b chunk'].
    + apply IH in H. exact H.
    + cbn [write_chunks] in H. unfold bind, file_write in H.
      set (chunk := b :: chunk') in *.
      destruct (Z.of_nat (length chunk) <=? w_free w)%Z.
      * destruct (Fs.append chunk (w_root w) p) as [root' | e] eqn:Ea.
        -- apply IH in H. destruct H as (Hs & Hl & Hc). cbn in Hs, Hl.
           repeat split; auto.
           intros c Hfile.
           apply append_lookup in Ea. destruct Ea as (c0 & H0 & H1).
           rewrite Hfile in H0. injection H0 as <-.
           destruct (Hc _ H1) as (c' & Hc' & Hr).
           exists c'. split; [exact Hc' |].
           destruct r; [| exact I]. rewrite length_app in Hr. lia.
        -- inversion H; subst. repeat split; auto.
           intros c Hc. exists c. split; [exact Hc | exact I].
      * inversion H; subst. repeat split; auto.
        intros c Hc. exists c. split; [exact Hc | exact I].
Qed.

(** When the file is not skipped, the outcome is the one of the download
    that follows. *)
Ltac use_fetch_outcome :=
  match goal with
  | Hdl : match ?fetch ?w1 with _ => _ end |- match ?m with _ => _ end =>
      change m with (fetch w1);
      destruct (fetch w1) as [[b | e] w']; [| exact Hdl];
      destruct Hdl as (Hb & Hd); split; [exact Hb | now right]
  end.

Lemma download_attempt_outcome (url : string) (p : Path) (w : world) :
  match download_attempt url p w with
  | (Ok b, w') =>
      b = true /\
      ((w_stats w' = incr_files_skipped (w_stats w) /\ w_log w' = w_log w)
       \/ (exists total content,
             w_stats w' = add_total_bytes total (incr_files_downloaded (w_stats w))
             /\ Fs.lookup (w_root w') p = Some (File content)
             /\ Z.of_nat (length content) = total /\ p <> []))
  | (Raise e, w') => w_stats w' = w_stats w
  end.
Proof.
  unfold download_attempt, bind, path_mkdir.
  destruct (Fs.mkdir_p (w_root w) (Fs.parent p)) as [root1 | e1]; [| reflexivity].
  set (w1 := set_root root1 w).
  assert (Hs1 : w_stats w1 = w_stats w) by reflexivity.
  assert (Hl1 : w_log w1 = w_log w) by reflexivity.
  clearbody w1.
  pose (fetch :=
    (download_response <- send (GetDownload url) ;;
     raise_for_status download_response ;;;
     open_wb p ;;;
     total_size <- write_chunks p (chunks download_response) 0 ;;
     end_of_stream download_response ;;;
     update_stats incr_files_downloaded ;;;
     update_stats (add_total_bytes total_size) ;;;
     ret true)).
  assert (Hdl : match fetch w1 with
  | (Ok b, w') =>
      b = true /\
      (exists total content,
             w_stats w' = add_total_bytes total (incr_files_downloaded (w_stats w))
             /\ Fs.lookup (w_root w') p = Some (File content)
             /\ Z.of_nat (length content) = total /\ p <> [])
  | (Raise e, w') => w_stats w' = w_stats w
  end).
  { unfold fetch, bind, send.
    destruct (w_net w1 (w_log w1) (GetDownload url)) as [text | resp]; [exact Hs1 |].
    unfold raise_for_status.
    destruct ((400 <=? status_code resp) && (status_code resp <? 600))%Z;
      [exact Hs1 |].
    unfold ret, open_wb. cbn [w_root set_log].
    destruct (Fs.create (w_root w1) p) as [root2 | e2] eqn:Ec; [| exact Hs1].
    assert (Hp : p <> []).
    { intros ->. unfold Fs.create in Ec. destruct (w_root w1); discriminate. }
    apply create_lookup in Ec.
    match goal with
    | |- context [write_chunks p (chunks resp) 0 ?w0] => set (w2 := w0)
    end.
    assert (Hs2 : w_stats w2 = w_stats w) by exact Hs1.
    assert (Hr2 : Fs.lookup (w_root w2) p = Some (File [])) by exact Ec.
    clearbody w2.
    destruct (write_chunks p (chunks resp) 0 w2) as [[total | e3] w3] eqn:Ew;
      apply write_chunks_effect in Ew; destruct Ew as (Hs3 & _ & Hc3);
      [| congruence].
    destruct (Hc3 _ Hr2) as (content & Hfile & Hlen).
    unfold end_of_stream.
    destruct (stream_error resp) as [text |]; [cbn; congruence |].
    cbn. split; [reflexivity |].
    exists total, content. repeat split.
    - now rewrite Hs3, Hs2.
    - exact Hfile.
    - simpl in Hlen. lia.
    - exact Hp. }

  unfold path_exists.
  destruct (Fs.lookup (w_root w1) p) as [[content | entries] |] eqn:El.
  - unfold path_st_size. rewrite El. unfold ret.
    destruct (0 <? Z.of_nat (length content))%Z.
    + cbn. split; [reflexivity |]. left. now rewrite Hs1, Hl1.
    + use_fetch_outcome.
  - unfold path_st_size. rewrite El. unfold ret.
    destruct (0 <? w_dir_size w1)%Z.
    + cbn. split; [reflexivity |]. left. now rewrite Hs1, Hl1.
    + use_fetch_outcome.
  - unfold ret. use_fetch_outcome.
Qed.

Lemma on_request_exception_effect (p : Path) (w : world) :
  exists w',
    on_request_exception p w = (Ok false, w')
    /\ w_stats w' = incr_download_errors (w_stats w)
    /\ (p <> [] -> Fs.is_file (w_root w') p = false).
Proof.
  unfold on_request_exception, bind, update_stats, modify, path_exists, try_except.
  cbn [w_root set_stats].
  destruct (Fs.lookup (w_root w) p) as [[content | entries] |] eqn:El.
  - unfold path_unlink. cbn [w_root set_stats].
    destruct (Fs.unlink (w_root w) p) as [root' | e] eqn:Eu.
    + eexists. split; [reflexivity |]. split; [reflexivity |].
      intros _. unfold Fs.is_file. cbn [w_root set_free set_root].
      now rewrite (unlink_lookup _ _ _ Eu).
    + eexists. split; [reflexivity |]. split; [reflexivity |].
      intros Hp. destruct (unlink_existing_file _ _ _ Hp El) as (root' & Hu).
      congruence.
  - unfold path_unlink. cbn [w_root set_stats].
    destruct (Fs.unlink (w_root w) p) as [root' | e] eqn:Eu.
    + eexists. split; [reflexivity |]. split; [reflexivity |].
      intros _. unfold Fs.is_file. cbn [w_root set_free set_root].
      now rewrite (unlink_lookup _ _ _ Eu).
    + eexists. split; [reflexivity |]. split; [reflexivity |].
      intros _. unfold Fs.is_file. cbn [w_root set_stats]. now rewrite El.
  - eexists. split; [reflexivity |]. split; [reflexivity |].
    intros _. unfold Fs.is_file. cbn [w_root set_stats]. now rewrite El.
Qed.

Lemma download_file_counts (url : string) (p : Path) (name : string) (w : world) :
  exists b w',
    download_file url p name w = (Ok b, w')
    /\ files_found (w_stats w') = files_found (w_stats w)
    /\ counted (w_stats w') = (counted (w_stats w) + 1)%Z.
Proof.
  unfold download_file, try_except.
  pose proof (download_attempt_outcome url p w) as H.
  destruct (download_attempt url p w) as [[b | e] w1].
  - exists b, w1. split; [reflexivity |].
    destruct H as (_ & [(Hs & _) | (total & content & Hs & _)]); rewrite Hs;
      unfold counted; cbn; split; lia.
  - cbn [any_Exception].
    destruct (is_RequestException e).
    + destruct (on_request_exception_effect p w1) as (w' & Hr & Hs & _).
      exists false, w'. split; [exact Hr |].
      rewrite Hs, H. unfold counted; cbn; split; lia.
    + exists false. eexists. split; [reflexivity |].
      cbn. rewrite H. unfold counted; cbn; split; lia.
Qed.

Lemma download_file_request_error_cleans (url : string) (p : Path) (name : string)
      (w w1 : world) (e : exn) :
  p <> [] ->
  download_attempt url p w = (Raise e, w1) ->
  is_RequestException e = true ->
  exists w',
    download_file url p name w = (Ok false, w')
    /\ Fs.is_file (w_root w') p = false.
Proof.
  intros Hp Ha He. unfold download_file, try_except.
  rewrite Ha. cbn [any_Exception]. rewrite He.
  destruct (on_request_exception_effect p w1) as (w' & Hr & _ & Hf).
  exists w'. split; [exact Hr | now apply Hf].
Qed.

Lemma download_leaves_content (url : string) (p : Path) (name : string)
      (w0 w : world) :
  download_file url p name w0 = (Ok true, w) ->
  files_downloaded (w_stats w) = (files_downloaded (w_stats w0) + 1)%Z ->
  (total_bytes_downloaded (w_stats w0) < total_bytes_downloaded (w_stats w))%Z ->
  p <> [] /\ exists content,
    Fs.lookup (w_root w) p = Some (File content) /\ content <> [].
Proof.
  unfold download_file, try_except.
  pose proof (download_attempt_outcome url p w0) as H.
  destruct (download_attempt url p w0) as [[b | e] w1].
  - intros Heq Hd Ht. injection Heq as -> ->.
    destruct H as (_ & [(Hs & _) | (total & content & Hs & Hl & Hlen & Hp)]);
      rewrite Hs in Hd, Ht; cbn in Hd, Ht; [lia |].
    split; [exact Hp |]. exists content. split; [exact Hl |].
    intros ->. simpl in Hlen. lia.
  - cbn [any_Exception]. destruct (is_RequestException e).
    + destruct (on_request_exception_effect p w1) as (w' & Hr & _).
      rewrite Hr. discriminate.
    + cbn. discriminate.
Qed.

(** [download_file] by itself does not keep the invariant: called in a
    state in which every file found so far has been counted once, it adds
    one to one of the three counters and leaves [files_found] alone. *)
Lemma download_file_breaks_invariant (url : string) (p : Path) (name : string)
      (w : world) :
  counted (w_stats w) = files_found (w_stats w) ->
  ~ stats_invariant (w_stats (snd (download_file url p name w))).
Proof.
  intros Htight.
  destruct (download_file_counts url p name w) as (b & w' & Hrun & Hfound & Hsum).
  rewrite Hrun. cbn [snd]. unfold stats_invariant.
  unfold counted in *. lia.
Qed.

(** C5. When a file with content is at the destination (it was there
    before, or an earlier call downloaded it), [download_file] sends no
    request, changes nothing on disk, counts one skipped file and returns
    [True]. *)
Theorem download_file_skips_existing (download_url : string) (file_path : Path)
        (file_name : string) (w : world) :
  file_path <> [] ->
  has_content w file_path \/ after_download file_path w ->
  let w' := set_stats (incr_files_skipped (w_stats w)) w in
  download_file download_url file_path file_name w = (Ok true, w')
  /\ w_log w' = w_log w
  /\ w_root w' = w_root w
  /\ files_skipped (w_stats w') = (files_skipped (w_stats w) + 1)%Z.
Proof.
  intros Hp H w'.
  assert (Hc : has_content w file_path).
  { destruct H as [Hc | (url0 & name0 & w0 & Hrun & Hd & Ht)]; [exact Hc |].
    destruct (download_leaves_content _ _ _ _ _ Hrun Hd Ht) as (_ & Hc).
    exact Hc. }
  destruct Hc as (content & Hfile & Hne).
  split; [| repeat split].
  now apply (download_file_skips download_url file_path file_name w content).
Qed.

Lemma download_file_skips_existing_witness :
  let w1 := snd (download_file blob_url a_txt "a.txt" empty_backup_world) in
  let w2 := set_stats (incr_files_skipped (w_stats w1)) w1 in
  download_file blob_url a_txt "a.txt" w1 = (Ok true, w2)
  /\ w_log w2 = w_log w1
  /\ w_root w2 = w_root w1
  /\ files_skipped (w_stats w2) = (files_skipped (w_stats w1) + 1)%Z.
Proof.
  intros w1.
  apply (download_file_skips_existing blob_url a_txt "a.txt" w1).
  - discriminate.
  - right. exists blob_url, "a.txt", empty_backup_world.
    split; [reflexivity |]. split; [reflexivity |]. vm_compute. reflexivity.
Defined.

(** C4, the failing input. The disk fills up while the second chunk is
    written: [download_file] reports the failure through the handler of
    [Exception], which removes nothing, and the first chunk stays at the
    destination. *)
Theorem download_file_keeps_partial_file :
  let '(outcome, w) := download_file blob_url a_txt "a.txt" full_disk_world in
  outcome = Ok false
  /\ download_errors (w_stats w) = 1%Z
  /\ Fs.lookup (w_root w) a_txt = Some (File [x41; x42; x43])
  /\ Fs.is_file (w_root w) a_txt = true.
Proof. vm_compute. repeat split. Qed.

(** Outside a run: [download_file] is called by no method of the class,
    and a direct call of it on a fresh client that finds the file in place
    counts a skipped file while [files_found] is still zero. *)
Lemma skip_breaks_stats_invariant :
  let '(outcome, w) := init_then_download a_txt populated_world in
  outcome = Ok true
  /\ files_skipped (w_stats w) = 1%Z
  /\ files_found (w_stats w) = 0%Z
  /\ ~ stats_invariant (w_stats w).
Proof.
  vm_compute. repeat split. intros H. apply H. reflexivity.
Qed.

(** ** The listing calls *)

(** Neither listing call raises. *)
Lemma listing_call_returns (l : listing) (w : world) :
  exists v, listing_call l w = (Ok v, logged (listing_request l) w).
Proof.
  destruct l as [| project_id]; cbn [listing_call listing_request];
    unfold get_projects, get_project_files, try_except, bind, send, logged;
    match goal with
    | |- context [w_net w (w_log w) ?r] => destruct (w_net w (w_log w) r) as [text | resp]
    end;
    try (eexists; reflexivity);
    unfold raise_for_status;
    destruct ((400 <=? status_code resp) && (status_code resp <? 600))%Z;
    try (eexists; reflexivity);
    unfold ret, response_json;
    destruct (json_body resp); eexists; reflexivity.
Qed.

(** A failed listing request is answered with the empty list. *)
Lemma listing_call_fails (l : listing) (w : world) :
  request_fails w (listing_request l) ->
  listing_call l w = (Ok (JList []), logged (listing_request l) w).
Proof.
  unfold request_fails.
  destruct l as [| project_id]; cbn [listing_call listing_request];
    unfold get_projects, get_project_files, try_except, bind, send, logged;
    match goal with
    | |- context [w_net w (w_log w) ?r] => destruct (w_net w (w_log w) r) as [text | resp]
    end;
    intros H; try reflexivity;
    unfold raise_for_status;
    assert (E : ((400 <=? status_code resp) && (status_code resp <? 600))%Z = true)
      by (apply andb_true_iff; split; [apply Z.leb_le | apply Z.ltb_lt]; lia);
    rewrite E; reflexivity.
Qed.

(** C10. When the listing request is answered with a status that
    [raise_for_status] accepts and the payload is an object without a
    ['data'] key, [get_projects] and [get_project_files] return that object
    itself. *)
Theorem listing_call_bare_object (l : listing) (w : world) (resp : response)
      (fields : list (string * json)) :
  w_net w (w_log w) (listing_request l) = Responded resp ->
  ~ (400 <= status_code resp < 600)%Z ->
  json_body resp = Some (JDict fields) ->
  Py.dict_get "data" fields = None ->
  listing_call l w = (Ok (JDict fields), logged (listing_request l) w).
Proof.
  intros Hnet Hstatus Hbody Hdata.
  assert (E : ((400 <=? status_code resp) && (status_code resp <? 600))%Z = false).
  { apply andb_false_iff.
    destruct (400 <=? status_code resp)%Z eqn:E1; [right | now left].
    apply Z.leb_le in E1. apply Z.ltb_ge. lia. }
  destruct l as [| project_id]; cbn [listing_call listing_request] in *;
    unfold get_projects, get_project_files, try_except, bind, send, logged;
    rewrite Hnet; unfold raise_for_status; rewrite E;
    unfold response_json; rewrite Hbody;
    unfold ret, select_payload, Py.is_list, Py.dict_has; cbv beta iota;
    rewrite Hdata; reflexivity.
Qed.

Lemma listing_call_bare_object_witness :
  listing_call Projects bare_object_world
  = (Ok (JDict bare_object), logged GetProjects bare_object_world).
Proof.
  apply (listing_call_bare_object Projects bare_object_world
                                  (json_response (JDict bare_object)) bare_object).
  - reflexivity.
  - cbn. lia.
  - reflexivity.
  - reflexivity.
Defined.

(** ** The loop over the projects *)

Section Isolation.

Variable process_files_structure : json -> Path -> json -> json -> M (list json).
Variable backup_location : Path.

Lemma process_project_files_returns (project_files : json) (project_dir : Path)
      (project_id branch_id : json) (info : project_info) (w : world) :
  exists info' w',
    process_project_files process_files_structure project_files project_dir
                          project_id branch_id info w = (Ok info', w')
    /\ forall e w3,
        process_files_structure project_files project_dir project_id branch_id w
        = (Raise e, w3) ->
        pi_status info' = ("error - " ++ exn_text e)%string.
Proof.
  unfold process_project_files, bind, attempt.
  destruct (process_files_structure project_files project_dir project_id branch_id w)
    as [[processed | e] w1].
  - unfold update_stats, modify.
    destruct (count_successful processed); do 2 eexists;
      (split; [reflexivity | discriminate]).
  - do 2 eexists. split; [reflexivity |].
    intros e' w3 H. injection H as <- _. reflexivity.
Qed.

Lemma backup_project_files_returns (project_dir : Path) (project_id branch_id : json)
      (info : project_info) (w : world) :
  exists info' w',
    backup_project_files process_files_structure project_dir project_id branch_id
                         info w = (Ok info', w')
    /\ forall project_files w2 e w3,
        get_project_files project_id w = (Ok project_files, w2) ->
        Py.truthy project_files = true ->
        process_files_structure project_files project_dir project_id branch_id w2
        = (Raise e, w3) ->
        pi_status info' = ("error - " ++ exn_text e)%string.
Proof.
  unfold backup_project_files, bind.
  destruct (listing_call_returns (ProjectFiles project_id) w) as (v & Hv).
  cbn [listing_call listing_request] in Hv. rewrite Hv.
  destruct (Py.truthy v) eqn:Ht; cbn [negb].
  - destruct (process_project_files_returns v project_dir project_id branch_id info
                (logged (GetProjectFiles project_id) w)) as (info' & w' & Hrun & Herr).
    exists info', w'. split; [exact Hrun |].
    intros files w2 e w3 Hfiles _ Hraise.
    injection Hfiles as <- <-. now apply (Herr e w3).
  - do 2 eexists. split; [reflexivity |].
    intros files w2 e w3 Hfiles Htrue. injection Hfiles as <- _. congruence.
Qed.

Lemma backup_project_dict (fields : list (string * json)) (w : world) :
  exists info w1,
    backup_project process_files_structure backup_location (JDict fields) w
    = (Ok info, w1)
    /\ failure_recorded process_files_structure backup_location fields w info.
Proof.
  unfold backup_project, failure_recorded, bind, lift. cbn [Py.get].
  set (project_id := Py.dict_get_default "id" (JStr "") fields).
  set (project_name := Py.dict_get_default "name" (JStr "Unknown Project") fields).
  set (branch_id := match Py.dict_get_default "defaultBranch" (JDict []) fields with
                    | JDict branch => Py.dict_get_default "id" (JStr "") branch
                    | _ => JStr ""
                    end).
  destruct (Py.truthy project_id) eqn:Hid; cbn [negb].
  - unfold attempt.
    destruct (create_project_directory backup_location project_name w)
      as [[project_dir | e] w1] eqn:Hdir.
    + set (info := mkProjectInfo project_id project_name branch_id [] "skipped").
      destruct (backup_project_files_returns project_dir project_id branch_id info w1)
        as (info' & w' & Hrun & Herr).
      exists info', w'. split; [exact Hrun |].
      split; [discriminate |]. split; [discriminate |].
      intros _ dir' w1' files w2 e w3 Hd Hfiles Ht Hraise.
      injection Hd as <- <-. now apply (Herr files w2 e w3).
    + do 2 eexists. split; [reflexivity |].
      split; [discriminate |]. split.
      * intros _ e' w1' H. injection H as <- _. reflexivity.
      * intros _ dir' w1' files w2 e' w3 Hd. discriminate.
  - do 2 eexists. split; [reflexivity |].
    split; [reflexivity |]. split; discriminate.
Qed.

Lemma backup_projects_isolated (projects : list json) :
  Forall (fun project => Py.is_dict project = true) projects ->
  forall w,
  exists infos w',
    backup_projects process_files_structure backup_location projects w
    = (Ok infos, w')
    /\ isolated process_files_structure backup_location projects w infos w'.
Proof.
  induction 1 as [| project rest Hdict Hrest IH]; intros w.
  - exists [], w. split; [reflexivity | constructor].
  - destruct project as [| b | n | s | items | fields]; try discriminate.
    destruct (backup_project_dict fields w) as (info & w1 & Hrun & Hrec).
    destruct (IH w1) as (infos & w' & Hloop & Hiso).
    exists (info :: infos), w'. split.
    + cbn [backup_projects]. unfold bind. rewrite Hrun, Hloop. reflexivity.
    + econstructor; eassumption.
Qed.

(** The statuses [failure_recorded] speaks of are error statuses. *)
Lemma error_statuses (text : string) :
  is_error_status "error - no ID" = true
  /\ is_error_status ("error - directory creation failed: " ++ text) = true
  /\ is_error_status ("error - " ++ text) = true.
Proof. repeat split. Qed.


End Isolation.


(** C9. A listing request that ends in a transport error or in an HTTP
    error status makes [get_projects], and likewise [get_project_files],
    return the empty list; the run then ends with no project, and the
    project whose files could not be listed is filed as having no files. *)
Theorem listing_failure_degrades (l : listing) (w : world) :
  request_fails w (listing_request l) ->
  listing_call l w = (Ok (JList []), logged (listing_request l) w)
  /\ forall process_files_structure backup_location,
      match l with
      | Projects =>
          backup_all_projects process_files_structure backup_location w
          = (Ok (mkSummary backup_location [] None), logged GetProjects w)
      | ProjectFiles project_id =>
          forall project_dir branch_id info,
            backup_project_files process_files_structure project_dir project_id
                                 branch_id info w
            = (Ok (set_status "no files" info), logged (GetProjectFiles project_id) w)
      end.
Proof.
  intros Hfail. pose proof (listing_call_fails l w Hfail) as Hcall.
  split; [exact Hcall |].
  intros pfs loc. destruct l as [| project_id]; cbn [listing_call listing_request] in Hcall.
  - unfold backup_all_projects, bind. rewrite Hcall. reflexivity.
  - intros dir branch info. unfold backup_project_files, bind. rewrite Hcall.
    reflexivity.
Qed.

Lemma listing_failure_degrades_witness :
  listing_call Projects unavailable_world
  = (Ok (JList []), logged GetProjects unavailable_world)
  /\ forall process_files_structure backup_location,
      backup_all_projects process_files_structure backup_location unavailable_world
      = (Ok (mkSummary backup_location [] None), logged GetProjects unavailable_world).
Proof.
  apply (listing_failure_degrades Projects unavailable_world).
  cbn. lia.
Defined.

(** The object of C10 is not a list of projects: the loop runs through its
    keys, and the first of them has no [get]. *)
Example bare_object_aborts_run :
  fst (backup_all_projects absent_process_files_structure scenario_location
                           bare_object_world)
  = Raise (mkExn AttributeError "'str' object has no attribute 'get'").
Proof. reflexivity. Qed.

(** ** The counters during a run *)

Lemma create_project_directory_stats (loc : Path) (name : json) (w : world) :
  w_stats (snd (create_project_directory loc name w)) = w_stats w.
Proof.
  unfold create_project_directory, bind, sanitize_value.
  destruct name; try reflexivity.
  unfold ret, path_mkdir.
  destruct (Fs.mkdir_p (w_root w) _); reflexivity.
Qed.

Lemma absent_backup_project_stats (loc : Path) (project : json) (w : world) :
  w_stats (snd (backup_project absent_process_files_structure loc project w))
  = w_stats w.
Proof.
  destruct project as [| b | n | s | items | fields]; try reflexivity.
  unfold backup_project, bind, lift. cbn [Py.get].
  destruct (Py.truthy (Py.dict_get_default "id" (JStr "") fields)); cbn [negb];
    [| reflexivity].
  unfold attempt.
  pose proof (create_project_directory_stats loc
                (Py.dict_get_default "name" (JStr "Unknown Project") fields) w) as Hd.
  destruct (create_project_directory loc _ w) as [[dir | e] w1]; cbn [snd] in Hd;
    [| exact Hd].
  unfold backup_project_files, bind.
  match goal with
  | |- context [get_project_files ?pid w1] =>
      destruct (listing_call_returns (ProjectFiles pid) w1) as (v & Hv)
  end.
  cbn [listing_call listing_request] in Hv. rewrite Hv.
  destruct (Py.truthy v); cbn [negb]; exact Hd.
Qed.

Lemma absent_backup_projects_stats (loc : Path) (projects : list json) :
  forall w,
    w_stats (snd (backup_projects absent_process_files_structure loc projects w))
    = w_stats w.
Proof.
  induction projects as [| project rest IH]; intros w; [reflexivity |].
  cbn [backup_projects]. unfold bind.
  pose proof (absent_backup_project_stats loc project w) as Hp.
  destruct (backup_project absent_process_files_structure loc project w)
    as [[info | e] w1]; cbn [snd] in Hp; [| exact Hp].
  pose proof (IH w1) as Hr.
  destruct (backup_projects absent_process_files_structure loc rest w1)
    as [[infos | e] w2]; cbn [snd] in Hr; unfold ret; cbn [snd]; congruence.
Qed.

(** Whatever the network answers, a run of the class as it stands leaves
    every counter where it was. *)
Lemma absent_run_keeps_stats (loc : Path) (w : world) :
  w_stats (snd (backup_all_projects absent_process_files_structure loc w))
  = w_stats w.
Proof.
  unfold backup_all_projects, bind.
  destruct (listing_call_returns Projects w) as (v & Hv).
  cbn [listing_call listing_request] in Hv. rewrite Hv.
  destruct (Py.truthy v); cbn [negb]; [| reflexivity].
  unfold lift.
  destruct (Py.len v); [| reflexivity].
  destruct (Py.iter v) as [items | e]; [| reflexivity].
  pose proof (absent_backup_projects_stats loc items (logged GetProjects w)) as H.
  destruct (backup_projects absent_process_files_structure loc items _)
    as [[infos | e] w']; exact H.
Qed.

(** ** The run as the class stands *)

(** C1, the failing input. In the scenario of two projects the run ends
    without raising, but the first project is recorded with the error of
    the missing method, no file is counted or downloaded, and the backup
    directory holds the two project directories and no file. *)
Theorem end_to_end_run_downloads_nothing :
  let '(outcome, w) := run_backup scenario_location scenario_world in
  outcome
  = Ok (mkSummary scenario_location
          [ mkProjectInfo (JStr "p1") (JStr "Alpha") (JStr "b1") []
                          ("error - " ++ missing_method_text);
            mkProjectInfo (JStr "p2") (JStr "Beta") (JStr "b2") [] "no files" ]
          (Some initial_stats))
  /\ w_stats w = initial_stats
  /\ w_root w = Dir [("bild_backup", Dir [("Alpha", Dir []); ("Beta", Dir [])])]
  /\ w_log w = [GetProjects; GetProjectFiles (JStr "p1"); GetProjectFiles (JStr "p2")].
Proof. vm_compute. repeat split. Qed.

(** Whatever tree the listing holds, the processing of a project records
    no file: the entry keeps its files and gets the error of the missing
    method. *)
Lemma absent_processing_records_nothing (project_files : json) (project_dir : Path)
      (project_id branch_id : json) (info : project_info) (w : world) :
  process_project_files absent_process_files_structure project_files project_dir
                        project_id branch_id info w
  = (Ok (set_status ("error - " ++ missing_method_text) info), w).
Proof. reflexivity. Qed.

(** C3, the failing input. The listing of project Alpha is a tree with
    three files, for which flattening should give three records with the
    paths [a.txt], [b.txt] and [sub/c.txt]; the class never flattens it:
    the entry of the project has no file record and the error of the
    missing method. *)
Theorem listed_tree_is_never_flattened :
  list_sum (map count_files alpha_files) = 3
  /\ flat_map (expected_paths []) alpha_files = ["a.txt"; "b.txt"; "sub/c.txt"]
  /\ get_project_files (JStr "p1") scenario_world
     = (Ok (JList (map to_json alpha_files)),
        logged (GetProjectFiles (JStr "p1")) scenario_world)
  /\ fst (backup_project absent_process_files_structure scenario_location
                         project_alpha scenario_world)
     = Ok (mkProjectInfo (JStr "p1") (JStr "Alpha") (JStr "b1") []
                         ("error - " ++ missing_method_text)).
Proof. vm_compute. repeat split. Qed.

(** ** The states of one run *)

Lemma run_state_stats (backup_location : Path) (w : world) :
  run_state backup_location w -> w_stats w = initial_stats.
Proof.
  induction 1 as [w w0 Hinit | w op Hrun IH].
  - unfold BildAPIClient_init, bind, path_mkdir, update_stats, modify in Hinit.
    destruct (Fs.mkdir_p (w_root w) backup_location); [| discriminate].
    now injection Hinit as <-.
  - rewrite <- IH. destruct op as [| name | project_id | files dir project_id branch];
      cbn [perform].
    + destruct (listing_call_returns Projects w) as (v & Hv).
      cbn [listing_call listing_request] in Hv. now rewrite Hv.
    + apply create_project_directory_stats.
    + destruct (listing_call_returns (ProjectFiles project_id) w) as (v & Hv).
      cbn [listing_call listing_request] in Hv. now rewrite Hv.
    + reflexivity.
Qed.

(** The loop body goes from a state of the run to a state of the run,
    through states of the run. *)
Lemma backup_project_run_state (backup_location : Path) (project : json) (w : world) :
  run_state backup_location w ->
  run_state backup_location
            (snd (backup_project absent_process_files_structure backup_location
                                 project w)).
Proof.
  intros Hrun.
  destruct project as [| b | n | s | items | fields]; try exact Hrun.
  unfold backup_project, bind, lift. cbn [Py.get].
  destruct (Py.truthy (Py.dict_get_default "id" (JStr "") fields)); cbn [negb];
    [| exact Hrun].
  unfold attempt.
  pose proof (run_performed backup_location w
                (OpCreateDirectory
                   (Py.dict_get_default "name" (JStr "Unknown Project") fields))
                Hrun) as Hd.
  cbn [perform] in Hd.
  destruct (create_project_directory backup_location _ w) as [[dir | e] w1];
    cbn [snd] in Hd; [| exact Hd].
  unfold backup_project_files, bind.
  match goal with
  | |- context [get_project_files ?pid w1] =>
      pose proof (run_performed backup_location w1 (OpListFiles pid) Hd) as Hf
  end.
  cbn [perform] in Hf.
  destruct (get_project_files _ w1) as [[v | e] w2]; cbn [snd] in Hf; [| exact Hf].
  destruct (Py.truthy v); cbn [negb]; exact Hf.
Qed.

Lemma backup_projects_run_state (backup_location : Path) (projects : list json) :
  forall w,
    run_state backup_location w ->
    run_state backup_location
              (snd (backup_projects absent_process_files_structure backup_location
                                    projects w)).
Proof.
  induction projects as [| project rest IH]; intros w Hrun; [exact Hrun |].
  cbn [backup_projects]. unfold bind.
  pose proof (backup_project_run_state backup_location project w Hrun) as Hp.
  destruct (backup_project absent_process_files_structure backup_location project w)
    as [[info | e] w1]; cbn [snd] in Hp; [| exact Hp].
  pose proof (IH w1 Hp) as Hr.
  destruct (backup_projects absent_process_files_structure backup_location rest w1)
    as [[infos | e] w2]; cbn [snd] in Hr; unfold ret; cbn [snd]; exact Hr.
Qed.

(** [backup_all_projects], started in a state of the run, ends in one. *)
Lemma backup_all_projects_run_state (backup_location : Path) (w : world) :
  run_state backup_location w ->
  run_state backup_location
            (snd (backup_all_projects absent_process_files_structure
                                      backup_location w)).
Proof.
  intros Hrun. unfold backup_all_projects, bind.
  pose proof (run_performed backup_location w OpListProjects Hrun) as Hl.
  cbn [perform] in Hl.
  destruct (get_projects w) as [[v | e] w1]; cbn [snd] in Hl; [| exact Hl].
  destruct (Py.truthy v); cbn [negb]; [| exact Hl].
  unfold lift.
  destruct (Py.len v); [| exact Hl].
  destruct (Py.iter v) as [items | e]; [| exact Hl].
  pose proof (backup_projects_run_state backup_location items w1 Hl) as H.
  destruct (backup_projects absent_process_files_structure backup_location items w1)
    as [[infos | e] w']; cbn [snd] in H |- *; exact H.
Qed.



(** ** More on [sanitize_filename] *)

Section Strip.

Variable set : PyStr.chars.

Lemma lstrip_head (l : PyStr.chars) (c : PyStr.code) (rest : PyStr.chars) :
  PyStr.lstrip set l = c :: rest -> PyStr.mem c set = false.
Proof.
  induction l as [| x l IH]; simpl; [discriminate |].
  destruct (PyStr.mem x set) eqn:E; [exact IH |].
  intros H. injection H as <- _. exact E.
Qed.

Lemma lstrip_split (l : PyStr.chars) :
  exists removed, l = removed ++ PyStr.lstrip set l.
Proof.
  induction l as [| x l (removed & IH)]; simpl; [now exists [] |].
  destruct (PyStr.mem x set).
  - exists (x :: removed). simpl. now f_equal.
  - now exists [].
Qed.

Lemma rstrip_split (l : PyStr.chars) :
  exists removed, l = PyStr.rstrip set l ++ removed.
Proof.
  unfold PyStr.rstrip.
  destruct (lstrip_split (rev l)) as (removed & H).
  exists (rev removed).
  rewrite <- rev_app_distr, <- H. now rewrite rev_involutive.
Qed.

Lemma lstrip_length (l : PyStr.chars) :
  length (PyStr.lstrip set l) <= length l.
Proof.
  destruct (lstrip_split l) as (removed & H).
  rewrite H at 2. rewrite length_app. lia.
Qed.

Lemma strip_length (l : PyStr.chars) :
  length (PyStr.strip set l) <= length l.
Proof.
  unfold PyStr.strip, PyStr.rstrip.
  rewrite length_rev.
  etransitivity; [apply lstrip_length |].
  rewrite length_rev. apply lstrip_length.
Qed.

Lemma strip_trimmed (l : PyStr.chars) : trimmed set (PyStr.strip set l).
Proof.
  unfold PyStr.strip. split.
  - intros c rest H.
    destruct (rstrip_split (PyStr.lstrip set l)) as (removed & Hs).
    rewrite H in Hs. simpl in Hs.
    now apply (lstrip_head l c (rest ++ removed)).
  - intros c front H. unfold PyStr.rstrip in H.
    apply (f_equal (@rev _)) in H.
    rewrite rev_involutive, rev_app_distr in H. simpl in H.
    now apply lstrip_head in H.
Qed.

Lemma lstrip_fixed (l : PyStr.chars) :
  (forall c rest, l = c :: rest -> PyStr.mem c set = false) ->
  PyStr.lstrip set l = l.
Proof.
  destruct l as [| c rest]; [reflexivity |].
  intros H. simpl. now rewrite (H c rest eq_refl).
Qed.

Lemma strip_fixed (l : PyStr.chars) :
  trimmed set l -> PyStr.strip set l = l.
Proof.
  intros [Hhead Hlast]. unfold PyStr.strip, PyStr.rstrip.
  rewrite (lstrip_fixed l Hhead).
  rewrite lstrip_fixed; [apply rev_involutive |].
  intros c rest H. apply (Hlast c (rev rest)).
  apply (f_equal (@rev _)) in H. rewrite rev_involutive in H.
  rewrite H. reflexivity.
Qed.

End Strip.

Lemma replace_invalid_fixed (l : PyStr.chars) :
  Forall valid_char l -> replace_invalid l = l.
Proof.
  induction 1 as [| c l Hc Hl IH]; simpl; [reflexivity |].
  unfold valid_char in Hc. now rewrite Hc, IH.
Qed.

Lemma replace_invalid_length (l : PyStr.chars) :
  length (replace_invalid l) = length l.
Proof. apply length_map. Qed.

(** The two ways [sanitize_chars] ends: the cleaned name (or the
    placeholder) when it fits, a truncation of at least 255 characters
    that is no longer than the cleaned name otherwise. *)
Lemma sanitize_chars_cases (filename : string) :
  let s := cleaned filename in
  (length s <= 255
   /\ sanitize_chars (PyStr.of_string filename)
      = match s with [] => PyStr.of_string "unnamed_file" | _ => s end)
  \/ (255 < length s
      /\ 255 <= length (sanitize_chars (PyStr.of_string filename)) <= length s).
Proof.
  intros s. unfold sanitize_chars. fold trimmed_chars. 
  change (PyStr.strip trimmed_chars (replace_invalid (PyStr.of_string filename)))
    with s.
  destruct (255 <? PyStr.len s)%Z eqn:Hlen; unfold PyStr.len in Hlen.
  - right. apply Z.ltb_lt in Hlen.
    destruct (OsPath.splitext s) as [name ext] eqn:E.
    pose proof (splitext_app _ _ _ E) as Hs.
    assert (Hsl : length s = length name + length ext)
      by (rewrite Hs; apply length_app).
    assert (Hcut : 255 <= length (PyStr.slice_to name (255 - PyStr.len ext) ++ ext)
                   <= length s).
    { rewrite length_app. unfold PyStr.slice_to, PyStr.len.
      destruct (255 - Z.of_nat (length ext) <? 0)%Z eqn:Hneg.
      - apply Z.ltb_lt in Hneg. rewrite length_firstn. lia.
      - apply Z.ltb_ge in Hneg. rewrite length_firstn. lia. }
    destruct (PyStr.slice_to name (255 - PyStr.len ext) ++ ext) as [| c t] eqn:Hout.
    + simpl in Hcut. lia.
    + split; [lia | exact Hcut].
  - left. apply Z.ltb_ge in Hlen. split; [lia | reflexivity].
Qed.

Lemma placeholder_trimmed : trimmed trimmed_chars (PyStr.of_string "unnamed_file").
Proof.
  change (PyStr.of_string "unnamed_file")
    with (PyStr.strip trimmed_chars (PyStr.of_string "unnamed_file")).
  apply strip_trimmed.
Qed.

Lemma cleaned_trimmed (filename : string) :
  trimmed trimmed_chars (cleaned filename).
Proof. exact (strip_trimmed trimmed_chars _). Qed.

Lemma sanitize_clean_fixed (name : string) :
  clean_name name -> sanitize_filename name = name.
Proof.
  intros (Hvalid & Htrim & Hne & Hlen).
  unfold sanitize_filename, sanitize_chars. fold trimmed_chars.
  rewrite (replace_invalid_fixed _ Hvalid), (strip_fixed _ _ Htrim).
  assert (E : (255 <? PyStr.len (PyStr.of_string name))%Z = false).
  { apply Z.ltb_ge. unfold PyStr.len. rewrite of_string_length. lia. }
  rewrite E.
  destruct (PyStr.of_string name) as [| c t] eqn:Hs.
  - apply (f_equal PyStr.to_string) in Hs. rewrite to_of_string in Hs.
    now contradiction Hne.
  - rewrite <- Hs. apply to_of_string.
Qed.

(** When the cleaned name fits, the output is a clean name. *)
Lemma sanitize_short_is_clean (filename : string) :
  length (cleaned filename) <= 255 -> clean_name (sanitize_filename filename).
Proof.
  intros Hfit. unfold clean_name.
  rewrite sanitize_filename_chars.
  split; [apply sanitize_chars_valid |].
  unfold sanitize_filename. rewrite to_string_length.
  destruct (sanitize_chars_cases filename) as [(_ & Hout) | (Hlong & _)]; [| lia].
  rewrite Hout.
  split; [| split].
  - destruct (cleaned filename) as [| c t] eqn:Hs; [apply placeholder_trimmed |].
    rewrite <- Hs. apply cleaned_trimmed.
  - intros E. apply (f_equal String.length) in E.
    rewrite to_string_length in E.
    destruct (cleaned filename); discriminate.
  - destruct (cleaned filename) as [| c t] eqn:Hs; [simpl; lia | exact Hfit].
Qed.

Lemma sanitize_segment_facts (filename : string) :
  let segment := sanitize_filename filename in
  segment <> "" /\ segment <> "." /\ segment <> ".."
  /\ ~ In (PyStr.code_of "/"%char) (PyStr.of_string segment)
  /\ ~ In (PyStr.code_of "\"%char) (PyStr.of_string segment).
Proof.
  intros segment. unfold segment.
  pose proof (sanitize_chars_valid (PyStr.of_string filename)) as Hvalid.
  rewrite Forall_forall in Hvalid.
  assert (Hdots : forall dots,
             length dots <= 2 ->
             (exists rest, dots = PyStr.code_of "."%char :: rest) ->
             sanitize_chars (PyStr.of_string filename) <> dots).
  { intros dots Hshort (rest & ->) E.
    destruct (sanitize_chars_cases filename) as [(_ & Hout) | (_ & Hlen & _)].
    - rewrite E in Hout.
      destruct (cleaned filename) as [| c t] eqn:Hs; [discriminate |].
      pose proof (cleaned_trimmed filename) as [Hhead _].
      rewrite Hs, <- Hout in Hhead.
      specialize (Hhead (PyStr.code_of "."%char) rest eq_refl). discriminate.
    - rewrite E in Hlen. simpl in Hshort. simpl in Hlen. lia. }
  repeat split.
  - intros E. apply (f_equal PyStr.of_string) in E.
    rewrite sanitize_filename_chars in E.
    now apply sanitize_chars_nonempty in E.
  - intros E. apply (f_equal PyStr.of_string) in E.
    rewrite sanitize_filename_chars in E.
    revert E. apply Hdots; [simpl; lia | now exists []].
  - intros E. apply (f_equal PyStr.of_string) in E.
    rewrite sanitize_filename_chars in E.
    revert E. apply Hdots; [simpl; lia | now exists [PyStr.code_of "."%char]].
  - rewrite sanitize_filename_chars. intros H. apply Hvalid in H. discriminate.
  - rewrite sanitize_filename_chars. intros H. apply Hvalid in H. discriminate.
Qed.

(** X1. Whatever the name, the output is one path segment that stays where
    it is put: not empty, not [.] or [..], and without slash or backslash. *)
Theorem sanitize_filename_safe_segment (filename : string) :
  let segment := sanitize_filename filename in
  segment <> "" /\ segment <> "." /\ segment <> ".."
  /\ ~ In (PyStr.code_of "/"%char) (PyStr.of_string segment)
  /\ ~ In (PyStr.code_of "\"%char) (PyStr.of_string segment).
Proof. exact (sanitize_segment_facts filename). Qed.

(** X2. A clean name (no illegal character, no dot or space at either
    end, not empty, at most 255 characters) is returned as it is. *)
Theorem sanitize_filename_keeps_clean_names (name : string) :
  clean_name name -> sanitize_filename name = name.
Proof. exact (sanitize_clean_fixed name). Qed.

Lemma report_pdf_clean : clean_name "report v2.pdf".
Proof.
  unfold clean_name. split; [repeat constructor |].
  split; [| split; [discriminate | simpl; lia]].
  change (PyStr.of_string "report v2.pdf")
    with (PyStr.strip trimmed_chars (PyStr.of_string "report v2.pdf")).
  apply strip_trimmed.
Defined.

Lemma sanitize_filename_keeps_clean_names_witness :
  sanitize_filename "report v2.pdf" = "report v2.pdf".
Proof.
  apply (sanitize_filename_keeps_clean_names "report v2.pdf").
  exact report_pdf_clean.
Defined.

(** X3. When the cleaned name has at most 255 characters, sanitizing the
    output again changes nothing. *)
Theorem sanitize_filename_idempotent (filename : string) :
  length (cleaned filename) <= 255 ->
  sanitize_filename (sanitize_filename filename) = sanitize_filename filename.
Proof.
  intros Hfit. apply sanitize_clean_fixed. now apply sanitize_short_is_clean.
Qed.

Lemma sanitize_filename_idempotent_witness :
  sanitize_filename (sanitize_filename " .a<b>.txt. ")
  = sanitize_filename " .a<b>.txt. ".
Proof.
  apply (sanitize_filename_idempotent " .a<b>.txt. ").
  vm_compute. lia.
Defined.

(** X4. The output is never longer than the name, the placeholder of 12
    characters apart. *)
Theorem sanitize_filename_length (filename : string) :
  String.length (sanitize_filename filename)
  <= Nat.max (String.length filename) 12.
Proof.
  unfold sanitize_filename. rewrite to_string_length.
  assert (Hs : length (cleaned filename) <= String.length filename).
  { unfold cleaned. etransitivity; [apply strip_length |].
    now rewrite replace_invalid_length, of_string_length. }
  destruct (sanitize_chars_cases filename) as [(_ & Hout) | (_ & _ & Hlen)].
  - rewrite Hout. destruct (cleaned filename) as [| c t]; [simpl; lia | lia].
  - lia.
Qed.

(** X5. When the cleaned name has at most 255 characters, the output
    neither starts nor ends with a dot or a space: [strip] trims both
    ends, not only the trailing one. *)
Theorem sanitize_filename_trims_both_ends (filename : string) :
  length (cleaned filename) <= 255 ->
  trimmed trimmed_chars (PyStr.of_string (sanitize_filename filename)).
Proof.
  intros Hfit.
  destruct (sanitize_short_is_clean filename Hfit) as (_ & Htrim & _).
  exact Htrim.
Qed.

Lemma sanitize_filename_trims_both_ends_witness :
  trimmed trimmed_chars (PyStr.of_string (sanitize_filename ".gitignore ")).
Proof.
  apply (sanitize_filename_trims_both_ends ".gitignore ").
  vm_compute. lia.
Defined.

(** ** Directories *)

Lemma entry_set_entry_other (name k : string) (n : node)
      (entries : list (string * node)) :
  k <> name -> Fs.entry k (Fs.set_entry name n entries) = Fs.entry k entries.
Proof.
  intros Hk. induction entries as [| [k' n'] rest IH]; simpl.
  - destruct (String.eqb name k) eqn:E; [| reflexivity].
    apply String.eqb_eq in E. congruence.
  - destruct (String.eqb k' name) eqn:E; simpl.
    + apply String.eqb_eq in E. subst k'.
      destruct (String.eqb name k) eqn:E'; [| reflexivity].
      apply String.eqb_eq in E'. congruence.
    + destruct (String.eqb k' k); [reflexivity | exact IH].
Qed.

Lemma mkdir_p_step (entries : list (string * node)) (name : string) (p : Path) :
  Fs.mkdir_p (Dir entries) (name :: p)
  = match Fs.mkdir_p (match Fs.entry name entries with
                      | Some c => c
                      | None => Dir []
                      end) p with
    | Ok child' => Ok (Dir (Fs.set_entry name child' entries))
    | Raise e => Raise e
    end.
Proof. reflexivity. Qed.

Lemma lookup_empty_dir (p : Path) (content : list byte) :
  Fs.lookup (Dir []) p <> Some (File content).
Proof. destruct p; discriminate. Qed.

(** After [mkdir_p] the path is a directory. *)
Lemma mkdir_p_makes_dir (p : Path) :
  forall root root',
    Fs.mkdir_p root p = Ok root' ->
    exists entries, Fs.lookup root' p = Some (Dir entries).
Proof.
  induction p as [| name p IH]; intros root root' H.
  - destruct root as [c | entries]; [discriminate |].
    injection H as <-. now exists entries.
  - destruct root as [c | entries]; [discriminate |].
    rewrite mkdir_p_step in H.
    destruct (Fs.mkdir_p _ p) as [child' | e] eqn:Hc; [| discriminate].
    injection H as <-. rewrite lookup_step, entry_set_entry.
    now apply IH in Hc.
Qed.

(** [mkdir_p] neither creates, removes nor changes a regular file. *)
Lemma mkdir_p_keeps_files (q : Path) :
  forall root root',
    Fs.mkdir_p root q = Ok root' ->
    forall p content,
      Fs.lookup root' p = Some (File content)
      <-> Fs.lookup root p = Some (File content).
Proof.
  induction q as [| name q IH]; intros root root' H p content.
  - destruct root as [c | entries]; [discriminate |].
    injection H as <-. reflexivity.
  - destruct root as [c | entries]; [discriminate |].
    rewrite mkdir_p_step in H.
    destruct (Fs.mkdir_p _ q) as [child' | e] eqn:Hc; [| discriminate].
    injection H as <-.
    destruct p as [| k p']; [split; discriminate |].
    rewrite !lookup_step.
    destruct (String.eqb k name) eqn:Ek.
    + apply String.eqb_eq in Ek. subst k. rewrite entry_set_entry.
      rewrite (IH _ _ Hc p' content).
      destruct (Fs.entry name entries); [reflexivity |].
      split; [intros F; now apply lookup_empty_dir in F | discriminate].
    + apply String.eqb_neq in Ek. rewrite (entry_set_entry_other _ _ _ _ Ek).
      reflexivity.
Qed.

(** Making a directory that [mkdir_p] has made changes nothing. *)
Lemma mkdir_p_again (p : Path) :
  forall root root', Fs.mkdir_p root p = Ok root' -> Fs.mkdir_p root' p = Ok root'.
Proof.
  induction p as [| name p IH]; intros root root' H.
  - destruct root as [c | entries]; [discriminate |]. now injection H as <-.
  - destruct root as [c | entries]; [discriminate |].
    rewrite mkdir_p_step in H.
    destruct (Fs.mkdir_p _ p) as [child' | e] eqn:Hc; [| discriminate].
    injection H as <-.
    rewrite mkdir_p_step, entry_set_entry, (IH _ _ Hc).
    rewrite set_entry_same; [reflexivity | apply entry_set_entry].
Qed.

(** X15. When [create_project_directory] returns, its result is a direct
    child of the backup location, named by a segment that is not empty,
    not [.] or [..] and has no slash or backslash, and that path is a
    directory afterwards. *)
Theorem project_directory_is_a_child (backup_location : Path) (project_name : json)
        (w w' : world) (project_dir : Path) :
  create_project_directory backup_location project_name w = (Ok project_dir, w') ->
  exists segment entries,
    project_dir = backup_location ++ [segment]
    /\ segment <> "" /\ segment <> "." /\ segment <> ".."
    /\ ~ In (PyStr.code_of "/"%char) (PyStr.of_string segment)
    /\ ~ In (PyStr.code_of "\"%char) (PyStr.of_string segment)
    /\ Fs.lookup (w_root w') project_dir = Some (Dir entries).
Proof.
  unfold create_project_directory, bind, sanitize_value.
  destruct project_name as [| b | n | s | items | fields]; try discriminate.
  unfold ret, path_mkdir.
  destruct (Fs.mkdir_p (w_root w) _) as [root' | e] eqn:Hmk; [| discriminate].
  intros H. injection H as <- <-.
  destruct (mkdir_p_makes_dir _ _ _ Hmk) as (entries & Hdir).
  exists (sanitize_filename s), entries.
  pose proof (sanitize_segment_facts s) as (H1 & H2 & H3 & H4 & H5).
  repeat split; assumption.
Qed.

Lemma project_directory_is_a_child_witness :
  exists segment entries,
    ["bild_backup"; "Alpha_ V2"] = scenario_location ++ [segment]
    /\ segment <> "" /\ segment <> "." /\ segment <> ".."
    /\ ~ In (PyStr.code_of "/"%char) (PyStr.of_string segment)
    /\ ~ In (PyStr.code_of "\"%char) (PyStr.of_string segment)
    /\ Fs.lookup
         (w_root (snd (create_project_directory scenario_location
                                                (JStr "Alpha: V2.") scenario_world)))
         ["bild_backup"; "Alpha_ V2"]
       = Some (Dir entries).
Proof.
  apply (project_directory_is_a_child scenario_location (JStr "Alpha: V2.")
                                      scenario_world).
  reflexivity.
Defined.

(** X16. [create_project_directory] touches nothing but directories: no
    regular file appears, disappears or changes, the counters and the
    request log stay as they are; and calling it again in the state it left
    returns the same path and changes nothing. *)
Theorem project_directory_is_harmless (backup_location : Path) (project_name : json)
        (w w' : world) (project_dir : Path) :
  create_project_directory backup_location project_name w = (Ok project_dir, w') ->
  (forall p content,
      Fs.lookup (w_root w') p = Some (File content)
      <-> Fs.lookup (w_root w) p = Some (File content))
  /\ w_stats w' = w_stats w
  /\ w_log w' = w_log w
  /\ create_project_directory backup_location project_name w' = (Ok project_dir, w').
Proof.
  unfold create_project_directory, bind, sanitize_value.
  destruct project_name as [| b | n | s | items | fields]; try discriminate.
  unfold ret, path_mkdir.
  destruct (Fs.mkdir_p (w_root w) _) as [root' | e] eqn:Hmk; [| discriminate].
  intros H. injection H as <- <-.
  split; [exact (mkdir_p_keeps_files _ _ _ Hmk) |].
  split; [reflexivity |]. split; [reflexivity |].
  cbn [w_root set_root]. rewrite (mkdir_p_again _ _ _ Hmk).
  reflexivity.
Qed.

Lemma project_directory_is_harmless_witness :
  let w' := snd (create_project_directory scenario_location (JStr "Alpha")
                                          populated_world) in
  (forall p content,
      Fs.lookup (w_root w') p = Some (File content)
      <-> Fs.lookup (w_root populated_world) p = Some (File content))
  /\ w_stats w' = w_stats populated_world
  /\ w_log w' = w_log populated_world
  /\ create_project_directory scenario_location (JStr "Alpha") w'
     = (Ok ["bild_backup"; "Alpha"], w').
Proof.
  apply (project_directory_is_harmless scenario_location (JStr "Alpha")
                                       populated_world).
  reflexivity.
Defined.

Lemma quiet_refl (w : world) : quiet w w.
Proof.
  split; [reflexivity |]. split; [| reflexivity].
  exists []. now rewrite app_nil_r.
Qed.

Lemma quiet_trans (w1 w2 w3 : world) : quiet w1 w2 -> quiet w2 w3 -> quiet w1 w3.
Proof.
  intros (Hs1 & (a1 & Hl1 & Ha1) & Hf1) (Hs2 & (a2 & Hl2 & Ha2) & Hf2).
  split; [congruence |]. split.
  - exists (a1 ++ a2). rewrite Hl2, Hl1, app_assoc. split; [reflexivity |].
    rewrite forallb_app, Ha1, Ha2. reflexivity.
  - intros p c. now rewrite Hf2, Hf1.
Qed.

Lemma listing_call_quiet (l : listing) (w : world) :
  quiet w (snd (listing_call l w)).
Proof.
  destruct (listing_call_returns l w) as (v & Hv). rewrite Hv. cbn [snd].
  split; [reflexivity |]. split; [| reflexivity].
  exists [listing_request l]. split; [reflexivity |]. now destruct l.
Qed.

Lemma create_project_directory_quiet (loc : Path) (name : json) (w : world) :
  quiet w (snd (create_project_directory loc name w)).
Proof.
  unfold create_project_directory, bind, sanitize_value.
  destruct name; try apply quiet_refl.
  unfold ret, path_mkdir.
  destruct (Fs.mkdir_p (w_root w) _) as [root' | e] eqn:Hmk; [| apply quiet_refl].
  cbn [snd]. split; [reflexivity |]. split.
  - exists []. now rewrite app_nil_r.
  - exact (mkdir_p_keeps_files _ _ _ Hmk).
Qed.

Lemma absent_backup_project_quiet (loc : Path) (project : json) (w : world) :
  quiet w (snd (backup_project absent_process_files_structure loc project w)).
Proof.
  destruct project as [| b | n | s | items | fields]; try apply quiet_refl.
  unfold backup_project, bind, lift. cbn [Py.get].
  destruct (Py.truthy (Py.dict_get_default "id" (JStr "") fields)); cbn [negb];
    [| apply quiet_refl].
  unfold attempt.
  pose proof (create_project_directory_quiet loc
                (Py.dict_get_default "name" (JStr "Unknown Project") fields) w) as Hd.
  destruct (create_project_directory loc _ w) as [[dir | e] w1]; cbn [snd] in Hd;
    [| exact Hd].
  unfold backup_project_files, bind.
  match goal with
  | |- context [get_project_files ?pid w1] =>
      pose proof (listing_call_quiet (ProjectFiles pid) w1) as Hq;
      destruct (listing_call_returns (ProjectFiles pid) w1) as (v & Hv)
  end.
  rewrite Hv in Hq. cbn [snd] in Hq.
  cbn [listing_call listing_request] in Hv. rewrite Hv.
  destruct (Py.truthy v); cbn [negb]; exact (quiet_trans _ _ _ Hd Hq).
Qed.

Lemma absent_backup_projects_quiet (loc : Path) (projects : list json) :
  forall w,
    quiet w (snd (backup_projects absent_process_files_structure loc projects w)).
Proof.
  induction projects as [| project rest IH]; intros w; [apply quiet_refl |].
  cbn [backup_projects]. unfold bind.
  pose proof (absent_backup_project_quiet loc project w) as Hp.
  destruct (backup_project absent_process_files_structure loc project w)
    as [[info | e] w1]; cbn [snd] in Hp; [| exact Hp].
  pose proof (IH w1) as Hr.
  destruct (backup_projects absent_process_files_structure loc rest w1)
    as [[infos | e] w2]; cbn [snd] in Hr; unfold ret; cbn [snd];
    exact (quiet_trans _ _ _ Hp Hr).
Qed.

(** X14. Whatever the network answers and whatever is on the disk, a run
    of [backup_all_projects] of the class as it stands changes no counter,
    sends only listing requests (no file details, no download) and neither
    creates, removes nor changes a regular file. *)
Theorem absent_run_is_quiet (backup_location : Path) (w : world) :
  quiet w (snd (backup_all_projects absent_process_files_structure
                                    backup_location w)).
Proof.
  unfold backup_all_projects, bind.
  pose proof (listing_call_quiet Projects w) as Hq.
  destruct (listing_call_returns Projects w) as (v & Hv).
  rewrite Hv in Hq. cbn [snd] in Hq.
  cbn [listing_call listing_request] in Hv. rewrite Hv.
  destruct (Py.truthy v); cbn [negb]; [| exact Hq].
  unfold lift.
  destruct (Py.len v); [| exact Hq].
  destruct (Py.iter v) as [items | e]; [| exact Hq].
  pose proof (absent_backup_projects_quiet backup_location items
                (logged GetProjects w)) as H.
  destruct (backup_projects absent_process_files_structure backup_location items _)
    as [[infos | e] w']; cbn [snd] in H |- *; exact (quiet_trans _ _ _ Hq H).
Qed.

(** X13. When [get_projects] returns a value that is not a list and not
    empty either (an object without ['data'], a string, a number, [true]),
    [backup_all_projects] raises a [TypeError] or an [AttributeError] right
    after the listing: nothing is caught and no summary is returned. *)
Theorem run_aborts_on_non_list (process_files_structure :
                                  json -> Path -> json -> json -> M (list json))
        (backup_location : Path) (w w0 : world) (v : json) :
  get_projects w = (Ok v, w0) ->
  Py.truthy v = true ->
  Py.is_list v = false ->
  exists e,
    backup_all_projects process_files_structure backup_location w = (Raise e, w0)
    /\ (exn_kind e = TypeError \/ exn_kind e = AttributeError).
Proof.
  intros Hlist Htrue Hshape.
  unfold backup_all_projects, bind. rewrite Hlist, Htrue. cbn [negb].
  destruct v as [| b | n | s | items | fields]; try discriminate.
  - eexists. split; [reflexivity | now left].
  - eexists. split; [reflexivity | now left].
  - destruct s as [| c s]; [discriminate |].
    eexists. split; [reflexivity | now right].
  - destruct fields as [| [k x] rest]; [discriminate |].
    eexists. split; [reflexivity | now right].
Qed.

Lemma run_aborts_on_non_list_witness :
  exists e,
    backup_all_projects absent_process_files_structure scenario_location
                        bare_object_world
    = (Raise e, logged GetProjects bare_object_world)
    /\ (exn_kind e = TypeError \/ exn_kind e = AttributeError).
Proof.
  apply (run_aborts_on_non_list absent_process_files_structure scenario_location
                                bare_object_world (logged GetProjects bare_object_world)
                                (JDict bare_object)).
  - reflexivity.
  - reflexivity.
  - reflexivity.
Defined.

(** ** More on [download_file] *)

(** A loop over the chunks that ends normally has appended all of them. *)
Lemma write_chunks_content (p : Path) (stream : list (list byte)) :
  forall t w t' w' content,
    write_chunks p stream t w = (Ok t', w') ->
    Fs.lookup (w_root w) p = Some (File content) ->
    Fs.lookup (w_root w') p = Some (File (content ++ concat stream))
    /\ t' = (t + Z.of_nat (length (concat stream)))%Z.
Proof.
  induction stream as [| chunk rest IH]; intros t w t' w' content H Hfile.
  - injection H as <- <-. simpl. rewrite app_nil_r. split; [exact Hfile | lia].
  - destruct chunk as [| b chunk'].
    + apply (IH _ _ _ _ _ H Hfile).
    + cbn [write_chunks] in H. unfold bind, file_write in H.
      set (chunk := b :: chunk') in *.
      destruct (Z.of_nat (length chunk) <=? w_free w)%Z; [| discriminate].
      destruct (Fs.append chunk (w_root w) p) as [root' | e] eqn:Ea; [| discriminate].
      apply append_lookup in Ea. destruct Ea as (c0 & H0 & H1).
      rewrite Hfile in H0. injection H0 as <-.
      destruct (IH _ _ _ _ _ H H1) as (Hl & Ht).
      cbn [concat]. rewrite app_assoc, length_app. split; [exact Hl | lia].
Qed.

Lemma write_chunks_log (p : Path) (stream : list (list byte)) (t : Z) (w : world) :
  w_log (snd (write_chunks p stream t w)) = w_log w
  /\ w_net (snd (write_chunks p stream t w)) = w_net w.
Proof.
  revert t w. induction stream as [| chunk rest IH]; intros t w; [now split |].
  destruct chunk as [| b chunk']; [apply IH |].
  cbn [write_chunks]. unfold bind, file_write.
  destruct (Z.of_nat (length (b :: chunk')) <=? w_free w)%Z; [| now split].
  destruct (Fs.append (b :: chunk') (w_root w) p); [| now split].
  match goal with |- context [write_chunks p rest ?t0 ?w0] =>
    destruct (IH t0 w0) as (Hl & Hn) end.
  rewrite Hl, Hn. now split.
Qed.

(** The outcome of the [try] block in full: a skip, or a download that put
    the whole body at the destination; an exception leaves the counters
    alone; at most one request is sent. *)
Lemma download_attempt_detail (url : string) (p : Path) (w : world) :
  match download_attempt url p w with
  | (Ok b, w') =>
      b = true /\
      ((w_stats w' = incr_files_skipped (w_stats w) /\ w_log w' = w_log w)
       \/ (exists resp,
             w_net w (w_log w) (GetDownload url) = Responded resp
             /\ stream_error resp = None
             /\ Fs.lookup (w_root w') p = Some (File (body_bytes resp))
             /\ w_stats w'
                = add_total_bytes (Z.of_nat (length (body_bytes resp)))
                                  (incr_files_downloaded (w_stats w))
             /\ w_log w' = w_log w ++ [GetDownload url]))
  | (Raise e, w') =>
      w_stats w' = w_stats w
      /\ (w_log w' = w_log w \/ w_log w' = w_log w ++ [GetDownload url])
  end.
Proof.
  unfold download_attempt, bind, path_mkdir.
  destruct (Fs.mkdir_p (w_root w) (Fs.parent p)) as [root1 | e1];
    [| split; [reflexivity | now left]].
  set (w1 := set_root root1 w).
  assert (Hs1 : w_stats w1 = w_stats w) by reflexivity.
  assert (Hl1 : w_log w1 = w_log w) by reflexivity.
  assert (Hn1 : w_net w1 = w_net w) by reflexivity.
  clearbody w1.
  pose (fetch :=
    (download_response <- send (GetDownload url) ;;
     raise_for_status download_response ;;;
     open_wb p ;;;
     total_size <- write_chunks p (chunks download_response) 0 ;;
     end_of_stream download_response ;;;
     update_stats incr_files_downloaded ;;;
     update_stats (add_total_bytes total_size) ;;;
     ret true)).
  assert (Hdl : match fetch w1 with
  | (Ok b, w') =>
      b = true /\
      (exists resp,
             w_net w (w_log w) (GetDownload url) = Responded resp
             /\ stream_error resp = None
             /\ Fs.lookup (w_root w') p = Some (File (body_bytes resp))
             /\ w_stats w'
                = add_total_bytes (Z.of_nat (length (body_bytes resp)))
                                  (incr_files_downloaded (w_stats w))
             /\ w_log w' = w_log w ++ [GetDownload url])
  | (Raise e, w') =>
      w_stats w' = w_stats w
      /\ (w_log w' = w_log w \/ w_log w' = w_log w ++ [GetDownload url])
  end).
  { unfold fetch, bind, send. rewrite Hn1, Hl1.
    destruct (w_net w (w_log w) (GetDownload url)) as [text | resp] eqn:Hnet;
      [split; [exact Hs1 | now right] |].
    unfold raise_for_status.
    destruct ((400 <=? status_code resp) && (status_code resp <? 600))%Z;
      [split; [exact Hs1 | now right] |].
    unfold ret, open_wb. cbn [w_root set_log].
    destruct (Fs.create (w_root w1) p) as [root2 | e2] eqn:Ec;
      [| split; [exact Hs1 | now right]].
    apply create_lookup in Ec.
    match goal with
    | |- context [write_chunks p (chunks resp) 0 ?w0] => set (w2 := w0)
    end.
    assert (Hs2 : w_stats w2 = w_stats w) by exact Hs1.
    assert (Hl2 : w_log w2 = w_log w ++ [GetDownload url]) by reflexivity.
    assert (Hr2 : Fs.lookup (w_root w2) p = Some (File [])) by exact Ec.
    clearbody w2.
    pose proof (write_chunks_log p (chunks resp) 0 w2) as (Hl3 & _).
    destruct (write_chunks p (chunks resp) 0 w2) as [[total | e3] w3] eqn:Ew;
      cbn [snd] in Hl3.
    - pose proof (write_chunks_content _ _ _ _ _ _ _ Ew Hr2) as (Hfile & Htotal).
      apply write_chunks_effect in Ew. destruct Ew as (Hs3 & _ & _).
      unfold end_of_stream.
      destruct (stream_error resp) as [text |] eqn:Hstream.
      + cbn. split; [congruence | right; congruence].
      + cbn. split; [reflexivity |].
        exists resp. repeat split; try assumption.
        * rewrite Hs3, Hs2. unfold body_bytes. f_equal. lia.
        * congruence.
    - apply write_chunks_effect in Ew. destruct Ew as (Hs3 & _ & _).
      split; [congruence | right; congruence]. }
  unfold path_exists.
  destruct (Fs.lookup (w_root w1) p) as [[content | entries] |] eqn:El.
  - unfold path_st_size. rewrite El. unfold ret.
    destruct (0 <? Z.of_nat (length content))%Z.
    + cbn. split; [reflexivity |]. left. now rewrite Hs1, Hl1.
    + use_fetch_outcome.
  - unfold path_st_size. rewrite El. unfold ret.
    destruct (0 <? w_dir_size w1)%Z.
    + cbn. split; [reflexivity |]. left. now rewrite Hs1, Hl1.
    + use_fetch_outcome.
  - unfold ret. use_fetch_outcome.
Qed.

Lemma on_request_exception_log (p : Path) (w : world) :
  w_log (snd (on_request_exception p w)) = w_log w.
Proof.
  unfold on_request_exception, bind, update_stats, modify, path_exists, try_except.
  cbn [w_root set_stats].
  destruct (Fs.lookup (w_root w) p) as [n |]; [| reflexivity].
  unfold path_unlink. cbn [w_root set_stats].
  destruct (Fs.unlink (w_root w) p); reflexivity.
Qed.


(** X11. When a call returns [True] and has counted a download, the
    server had answered, the stream ended without error, the file at the
    destination holds the chunks of the body in order and nothing else, and
    [total_bytes_downloaded] grew by its length. *)
Theorem download_file_writes_the_body (download_url : string) (file_path : Path)
        (file_name : string) (w w' : world) :
  download_file download_url file_path file_name w = (Ok true, w') ->
  files_downloaded (w_stats w') = (files_downloaded (w_stats w) + 1)%Z ->
  exists resp,
    w_net w (w_log w) (GetDownload download_url) = Responded resp
    /\ stream_error resp = None
    /\ Fs.lookup (w_root w') file_path = Some (File (body_bytes resp))
    /\ total_bytes_downloaded (w_stats w')
       = (total_bytes_downloaded (w_stats w) + Z.of_nat (length (body_bytes resp)))%Z
    /\ w_log w' = w_log w ++ [GetDownload download_url].
Proof.
  unfold download_file, try_except.
  pose proof (download_attempt_detail download_url file_path w) as H.
  destruct (download_attempt download_url file_path w) as [[b | e] w1].
  - intros Heq Hd. injection Heq as -> ->.
    destruct H as (_ & [(Hs & _) | (resp & Hnet & Hstream & Hfile & Hs & Hl)]).
    + rewrite Hs in Hd. cbn in Hd. lia.
    + exists resp. repeat split; try assumption. rewrite Hs. reflexivity.
  - cbn [any_Exception]. destruct (is_RequestException e).
    + destruct (on_request_exception_effect file_path w1) as (w2 & Hr & _).
      rewrite Hr. discriminate.
    + cbn. discriminate.
Qed.

Lemma download_file_writes_the_body_witness :
  exists resp,
    w_net empty_backup_world (w_log empty_backup_world) (GetDownload blob_url)
    = Responded resp
    /\ stream_error resp = None
    /\ Fs.lookup (w_root (snd (download_file blob_url a_txt "a.txt" empty_backup_world)))
                 a_txt
       = Some (File (body_bytes resp))
    /\ total_bytes_downloaded
         (w_stats (snd (download_file blob_url a_txt "a.txt" empty_backup_world)))
       = (total_bytes_downloaded (w_stats empty_backup_world)
          + Z.of_nat (length (body_bytes resp)))%Z
    /\ w_log (snd (download_file blob_url a_txt "a.txt" empty_backup_world))
       = w_log empty_backup_world ++ [GetDownload blob_url].
Proof.
  apply (download_file_writes_the_body blob_url a_txt "a.txt" empty_backup_world).
  - reflexivity.
  - reflexivity.
Defined.

(** X12. When the parent directory can be made, nothing with content is
    at the destination, and the request ends in a transport error or an
    HTTP error status, [download_file] returns [False], counts one error,
    has sent the one request, and leaves no file at the destination: an
    empty file that was there before is removed. *)
Theorem download_file_failed_request (download_url : string) (file_path : Path)
        (file_name : string) (w : world) (root1 : node) :
  file_path <> [] ->
  Fs.mkdir_p (w_root w) (Fs.parent file_path) = Ok root1 ->
  nothing_to_skip (set_root root1 w) file_path ->
  request_fails w (GetDownload download_url) ->
  exists w',
    download_file download_url file_path file_name w = (Ok false, w')
    /\ Fs.is_file (w_root w') file_path = false
    /\ download_errors (w_stats w') = (download_errors (w_stats w) + 1)%Z
    /\ w_log w' = w_log w ++ [GetDownload download_url].
Proof.
  intros Hp Hmk Hskip Hfail.
  assert (Ha : exists e,
             download_attempt download_url file_path w
             = (Raise e, logged (GetDownload download_url) (set_root root1 w))
             /\ is_RequestException e = true).
  { unfold download_attempt, bind, path_mkdir. rewrite Hmk.
    unfold nothing_to_skip in Hskip. unfold path_exists, path_st_size.
    assert (Hsend : exists e,
               (download_response <- send (GetDownload download_url) ;;
                raise_for_status download_response ;;;
                open_wb file_path ;;;
                total_size <- write_chunks file_path (chunks download_response) 0 ;;
                end_of_stream download_response ;;;
                update_stats incr_files_downloaded ;;;
                update_stats (add_total_bytes total_size) ;;;
                ret true) (set_root root1 w)
               = (Raise e, logged (GetDownload download_url) (set_root root1 w))
               /\ is_RequestException e = true).
    { unfold bind, send, logged. cbn [w_net w_log set_root].
      unfold request_fails in Hfail.
      destruct (w_net w (w_log w) (GetDownload download_url)) as [text | resp].
      - eexists. split; reflexivity.
      - unfold raise_for_status.
        assert (E : ((400 <=? status_code resp) && (status_code resp <? 600))%Z = true)
          by (apply andb_true_iff; split; [apply Z.leb_le | apply Z.ltb_lt]; lia).
        rewrite E. eexists. split; reflexivity. }
    unfold ret. cbv beta.
    destruct (Fs.lookup (w_root (set_root root1 w)) file_path)
      as [[content | entries] |] eqn:El; cbv beta iota; rewrite ?El; cbv beta iota.
    - subst content. exact Hsend.
    - assert (E : (0 <? w_dir_size (set_root root1 w))%Z = false)
        by (apply Z.ltb_ge; exact Hskip).
      rewrite E. exact Hsend.
    - exact Hsend. }
  destruct Ha as (e & Ha & He).
  unfold download_file, try_except. rewrite Ha. cbn [any_Exception]. rewrite He.
  destruct (on_request_exception_effect file_path
              (logged (GetDownload download_url) (set_root root1 w)))
    as (w' & Hr & Hs & Hf).
  pose proof (on_request_exception_log file_path
                (logged (GetDownload download_url) (set_root root1 w))) as Hl.
  rewrite Hr in Hl. cbn [snd] in Hl.
  exists w'. split; [exact Hr |]. split; [now apply Hf |].
  split; [rewrite Hs; reflexivity | exact Hl].
Qed.

Lemma download_file_failed_request_witness :
  exists w',
    download_file blob_url a_txt "a.txt" empty_file_world = (Ok false, w')
    /\ Fs.is_file (w_root w') a_txt = false
    /\ download_errors (w_stats w') = (download_errors (w_stats empty_file_world) + 1)%Z
    /\ w_log w' = w_log empty_file_world ++ [GetDownload blob_url].
Proof.
  apply (download_file_failed_request blob_url a_txt "a.txt" empty_file_world
                                      (w_root empty_file_world)).
  - discriminate.
  - reflexivity.
  - reflexivity.
  - cbn. lia.
Defined.

(** ** What a download leaves alone *)

Section Keeps.

Variable R : world -> world -> Prop.
Hypothesis R_refl : forall w, R w w.
Hypothesis R_trans : forall w1 w2 w3, R w1 w2 -> R w2 w3 -> R w1 w3.

Lemma keeps_ret {A} (a : A) : keeps R (ret a).
Proof. intros w. apply R_refl. Qed.

Lemma keeps_raise {A} (e : exn) : keeps R (@raise A e).
Proof. intros w. apply R_refl. Qed.

Lemma keeps_bind {A B} (m : M A) (k : A -> M B) :
  keeps R m -> (forall a, keeps R (k a)) -> keeps R (bind m k).
Proof.
  intros Hm Hk w. unfold bind. specialize (Hm w).
  destruct (m w) as [[a | e] w1]; cbn [snd] in *; [| exact Hm].
  exact (R_trans _ _ _ Hm (Hk a w1)).
Qed.

Lemma keeps_try_except {A} (body : M A) (catches : exn -> bool)
      (handler : exn -> M A) :
  keeps R body -> (forall e, keeps R (handler e)) ->
  keeps R (try_except body catches handler).
Proof.
  intros Hb Hh w. unfold try_except. specialize (Hb w).
  destruct (body w) as [[a | e] w1]; cbn [snd] in *; [exact Hb |].
  destruct (catches e); [| exact Hb].
  exact (R_trans _ _ _ Hb (Hh e w1)).
Qed.

End Keeps.

Lemma entry_remove_entry_other (name k : string) (entries : list (string * node)) :
  k <> name -> Fs.entry k (Fs.remove_entry name entries) = Fs.entry k entries.
Proof.
  intros Hk. induction entries as [| [k' n'] rest IH]; simpl; [reflexivity |].
  destruct (String.eqb k' name) eqn:E; simpl.
  - apply String.eqb_eq in E. subst k'.
    destruct (String.eqb name k) eqn:E'; [| exact IH].
    apply String.eqb_eq in E'. congruence.
  - destruct (String.eqb k' k); [reflexivity | exact IH].
Qed.

Lemma lookup_below_non_dir (o : option node) (q : Path) (content : list byte) :
  not_dir o -> q <> [] ->
  match o with Some n => Fs.lookup n q | None => None end <> Some (File content).
Proof.
  intros Ho Hq. destruct o as [[c | es] |]; [| contradiction | discriminate].
  destruct q; [congruence | discriminate].
Qed.

(** [alter] with a function that neither takes nor gives a directory
    leaves every other regular file alone. *)
Lemma alter_keeps_others (f : option node -> result (option node)) :
  (forall o r, f o = Ok r -> not_dir o /\ not_dir r) ->
  forall p root root',
    Fs.alter f root p = Ok root' ->
    forall q, q <> p ->
      forall content,
        Fs.lookup root' q = Some (File content)
        <-> Fs.lookup root q = Some (File content).
Proof.
  intros Hf. induction p as [| name p IH]; intros root root' H q Hq content.
  - destruct root; discriminate.
  - destruct root as [c | entries]; [discriminate |].
    destruct p as [| name' p'].
    + cbn [Fs.alter] in H.
      destruct (f (Fs.entry name entries)) as [r | e] eqn:Ef; [| discriminate].
      destruct (Hf _ _ Ef) as (Ho & Hr).
      assert (Hroot : root' = Dir (match r with
                                   | Some n => Fs.set_entry name n entries
                                   | None => Fs.remove_entry name entries
                                   end))
        by (destruct r; now injection H as <-).
      subst root'. clear H.
      destruct q as [| k q']; [split; discriminate |].
      rewrite !lookup_step.
      destruct (String.eqb k name) eqn:Ek.
      * apply String.eqb_eq in Ek. subst k.
        assert (Hq' : q' <> []) by congruence.
        pose proof (lookup_below_non_dir _ q' content Ho Hq') as Hold.
        pose proof (lookup_below_non_dir _ q' content Hr Hq') as Hnew.
        destruct r as [n |].
        -- rewrite entry_set_entry.
           split; intros F; [now apply Hnew in F | now apply Hold in F].
        -- rewrite entry_remove_entry.
           split; intros F; [discriminate | now apply Hold in F].
      * apply String.eqb_neq in Ek.
        destruct r as [n |].
        -- now rewrite (entry_set_entry_other _ _ _ _ Ek).
        -- now rewrite (entry_remove_entry_other _ _ _ Ek).
    + rewrite alter_step in H.
      destruct (Fs.entry name entries) as [child |] eqn:E; [| discriminate].
      destruct (Fs.alter f child (name' :: p')) as [child' | e] eqn:Ea;
        [| discriminate].
      injection H as <-.
      destruct q as [| k q']; [split; discriminate |].
      rewrite !lookup_step.
      destruct (String.eqb k name) eqn:Ek.
      * apply String.eqb_eq in Ek. subst k. rewrite entry_set_entry, E.
        apply (IH _ _ Ea). congruence.
      * apply String.eqb_neq in Ek.
        now rewrite (entry_set_entry_other _ _ _ _ Ek).
Qed.

Section OnlyTouches.

Variable p : Path.

Lemma only_touches_refl (w : world) : only_touches p w w.
Proof. intros q _ c. reflexivity. Qed.

Lemma only_touches_trans (w1 w2 w3 : world) :
  only_touches p w1 w2 -> only_touches p w2 w3 -> only_touches p w1 w3.
Proof. intros H1 H2 q Hq c. now rewrite (H2 q Hq), (H1 q Hq). Qed.

Lemma same_root_touches (w w' : world) :
  w_root w' = w_root w -> only_touches p w w'.
Proof. intros E q _ c. now rewrite E. Qed.

Lemma keeps_path_mkdir (d : Path) : keeps (only_touches p) (path_mkdir d).
Proof.
  intros w. unfold path_mkdir.
  destruct (Fs.mkdir_p (w_root w) d) as [root' | e] eqn:Hmk;
    [| apply only_touches_refl].
  intros q _ c. exact (mkdir_p_keeps_files _ _ _ Hmk q c).
Qed.

Lemma keeps_alter (f : option node -> result (option node)) (w : world)
      (root' : node) :
  (forall o r, f o = Ok r -> not_dir o /\ not_dir r) ->
  Fs.alter f (w_root w) p = Ok root' ->
  forall w', w_root w' = root' -> only_touches p w w'.
Proof.
  intros Hf Ha w' E q Hq c. rewrite E.
  exact (alter_keeps_others f Hf _ _ _ Ha q Hq c).
Qed.

Lemma keeps_open_wb : keeps (only_touches p) (open_wb p).
Proof.
  intros w. unfold open_wb.
  destruct (Fs.create (w_root w) p) as [root' | e] eqn:Hc;
    [| apply only_touches_refl].
  eapply keeps_alter; [| exact Hc | reflexivity].
  intros [[c | es] |] r H; inversion H; now split.
Qed.

Lemma keeps_file_write (chunk : list byte) : keeps (only_touches p) (file_write p chunk).
Proof.
  intros w. unfold file_write.
  destruct (Z.of_nat (length chunk) <=? w_free w)%Z; [| apply only_touches_refl].
  destruct (Fs.append chunk (w_root w) p) as [root' | e] eqn:Hc;
    [| apply only_touches_refl].
  eapply keeps_alter; [| exact Hc | reflexivity].
  intros [[c | es] |] r H; inversion H; now split.
Qed.

Lemma keeps_path_unlink : keeps (only_touches p) (path_unlink p).
Proof.
  intros w. unfold path_unlink.
  destruct (Fs.unlink (w_root w) p) as [root' | e] eqn:Hc;
    [| apply only_touches_refl].
  eapply keeps_alter; [| exact Hc | reflexivity].
  intros [[c | es] |] r H; inversion H; now split.
Qed.

Lemma keeps_write_chunks (stream : list (list byte)) (t : Z) :
  keeps (only_touches p) (write_chunks p stream t).
Proof.
  revert t. induction stream as [| chunk rest IH]; intros t.
  - apply keeps_ret. apply only_touches_refl.
  - destruct chunk as [| b chunk']; [apply IH |].
    cbn [write_chunks].
    apply keeps_bind; [apply only_touches_trans | apply keeps_file_write |].
    intros _. apply IH.
Qed.

Lemma keeps_update_stats (f : Stats -> Stats) : keeps (only_touches p) (update_stats f).
Proof. intros w. now apply same_root_touches. Qed.

Lemma keeps_send (r : request) : keeps (only_touches p) (send r).
Proof.
  intros w. unfold send.
  destruct (w_net w (w_log w) r); now apply same_root_touches.
Qed.

Lemma keeps_path_exists (d : Path) : keeps (only_touches p) (path_exists d).
Proof.
  intros w. unfold path_exists.
  destruct (Fs.lookup (w_root w) d); apply only_touches_refl.
Qed.

Lemma keeps_path_st_size (d : Path) : keeps (only_touches p) (path_st_size d).
Proof.
  intros w. unfold path_st_size.
  destruct (Fs.lookup (w_root w) d) as [[c | es] |]; apply only_touches_refl.
Qed.

Lemma keeps_download_file (url name : string) :
  keeps (only_touches p) (download_file url p name).
Proof.
  unfold download_file.
  apply keeps_try_except; [apply only_touches_trans | |].
  - unfold download_attempt.
    apply keeps_bind; [apply only_touches_trans | apply keeps_path_mkdir | intros _].
    apply keeps_bind; [apply only_touches_trans | apply keeps_path_exists | intros present].
    apply keeps_bind; [apply only_touches_trans | | intros has].
    + destruct present.
      * apply keeps_bind; [apply only_touches_trans | apply keeps_path_st_size | intros s].
        apply keeps_ret, only_touches_refl.
      * apply keeps_ret, only_touches_refl.
    + destruct has.
      * apply keeps_bind; [apply only_touches_trans | apply keeps_update_stats | intros _].
        apply keeps_ret, only_touches_refl.
      * apply keeps_bind; [apply only_touches_trans | apply keeps_send | intros resp].
        apply keeps_bind; [apply only_touches_trans | | intros _].
        { unfold raise_for_status. destruct (_ && _)%bool;
            [apply keeps_raise | apply keeps_ret]; apply only_touches_refl. }
        apply keeps_bind; [apply only_touches_trans | apply keeps_open_wb | intros _].
        apply keeps_bind; [apply only_touches_trans | apply keeps_write_chunks | intros t].
        apply keeps_bind; [apply only_touches_trans | | intros _].
        { unfold end_of_stream. destruct (stream_error resp);
            [apply keeps_raise | apply keeps_ret]; apply only_touches_refl. }
        apply keeps_bind; [apply only_touches_trans | apply keeps_update_stats | intros _].
        apply keeps_bind; [apply only_touches_trans | apply keeps_update_stats | intros _].
        apply keeps_ret, only_touches_refl.
  - intros e. destruct (is_RequestException e).
    + unfold on_request_exception.
      apply keeps_bind; [apply only_touches_trans | apply keeps_update_stats | intros _].
      apply keeps_bind; [apply only_touches_trans | apply keeps_path_exists | intros present].
      apply keeps_bind; [apply only_touches_trans | | intros _].
      * destruct present; [| apply keeps_ret, only_touches_refl].
        apply keeps_try_except; [apply only_touches_trans | apply keeps_path_unlink |].
        intros _. apply keeps_ret, only_touches_refl.
      * apply keeps_ret, only_touches_refl.
    + unfold on_other_exception.
      apply keeps_bind; [apply only_touches_trans | apply keeps_update_stats | intros _].
      apply keeps_ret, only_touches_refl.
Qed.

End OnlyTouches.

(** X22. A call of [download_file], however it ends, neither creates,
    removes nor changes a regular file other than the one at its
    destination. *)
Theorem download_file_touches_only_destination
        (download_url : string) (file_path : Path) (file_name : string) (w : world)
        (q : Path) (content : list byte) :
  q <> file_path ->
  (Fs.lookup (w_root (snd (download_file download_url file_path file_name w))) q
   = Some (File content)
   <-> Fs.lookup (w_root w) q = Some (File content)).
Proof.
  intros Hq.
  exact (keeps_download_file file_path download_url file_name w q Hq content).
Qed.

Lemma download_file_touches_only_destination_witness :
  Fs.lookup (w_root (snd (download_file blob_url b_txt "b.txt" populated_world))) a_txt
  = Some (File [x41; x42; x43])
  <-> Fs.lookup (w_root populated_world) a_txt = Some (File [x41; x42; x43]).
Proof.
  apply (download_file_touches_only_destination blob_url b_txt "b.txt" populated_world
                                                a_txt [x41; x42; x43]).
  discriminate.
Defined.

(** ** The constructor *)

(** X21. When the constructor returns, all counters are zero, the backup
    location is a directory, and no regular file has appeared, disappeared
    or changed; no request has been sent. *)
Theorem init_prepares_backup_location (backup_location : Path) (w w' : world) :
  BildAPIClient_init backup_location w = (Ok tt, w') ->
  w_stats w' = initial_stats
  /\ (exists entries, Fs.lookup (w_root w') backup_location = Some (Dir entries))
  /\ (forall p content,
         Fs.lookup (w_root w') p = Some (File content)
         <-> Fs.lookup (w_root w) p = Some (File content))
  /\ w_log w' = w_log w.
Proof.
  unfold BildAPIClient_init, bind, path_mkdir, update_stats, modify.
  destruct (Fs.mkdir_p (w_root w) backup_location) as [root' | e] eqn:Hmk;
    [| discriminate].
  intros H. injection H as <-. cbn.
  split; [reflexivity |].
  split; [exact (mkdir_p_makes_dir _ _ _ Hmk) |].
  split; [exact (mkdir_p_keeps_files _ _ _ Hmk) | reflexivity].
Qed.

Lemma init_prepares_backup_location_witness :
  let w' := snd (BildAPIClient_init scenario_location populated_world) in
  w_stats w' = initial_stats
  /\ (exists entries, Fs.lookup (w_root w') scenario_location = Some (Dir entries))
  /\ (forall p content,
         Fs.lookup (w_root w') p = Some (File content)
         <-> Fs.lookup (w_root populated_world) p = Some (File content))
  /\ w_log w' = w_log populated_world.
Proof.
  apply (init_prepares_backup_location scenario_location populated_world).
  reflexivity.
Defined.

(** ** The API calls *)


(** X7. In an envelope the listing calls return whatever is under
    ['data'], without looking at its type. *)
Theorem listing_call_unwraps_data (l : listing) (w : world) (resp : response)
        (fields : list (string * json)) (data : json) :
  w_net w (w_log w) (listing_request l) = Responded resp ->
  ~ (400 <= status_code resp < 600)%Z ->
  json_body resp = Some (JDict fields) ->
  Py.dict_get "data" fields = Some data ->
  listing_call l w = (Ok data, logged (listing_request l) w).
Proof.
  intros Hnet Hstatus Hbody Hdata.
  assert (E : ((400 <=? status_code resp) && (status_code resp <? 600))%Z = false).
  { apply andb_false_iff.
    destruct (400 <=? status_code resp)%Z eqn:E1; [right | now left].
    apply Z.leb_le in E1. apply Z.ltb_ge. lia. }
  destruct l as [| project_id]; cbn [listing_call listing_request] in *;
    unfold get_projects, get_project_files, try_except, bind, send, logged;
    rewrite Hnet; unfold raise_for_status; rewrite E;
    unfold response_json; rewrite Hbody;
    unfold ret, select_payload, Py.is_list, Py.dict_has, Py.dict_get_default;
    cbv beta iota; rewrite Hdata; reflexivity.
Qed.

Lemma listing_call_unwraps_data_witness :
  listing_call (ProjectFiles (JStr "p1")) scenario_world
  = (Ok (JList (map to_json alpha_files)),
     logged (GetProjectFiles (JStr "p1")) scenario_world).
Proof.
  apply (listing_call_unwraps_data
           (ProjectFiles (JStr "p1")) scenario_world
           (json_response (JDict [("data", JList (map to_json alpha_files))]))
           [("data", JList (map to_json alpha_files))]
           (JList (map to_json alpha_files))).
  - reflexivity.
  - cbn. lia.
  - reflexivity.
  - reflexivity.
Defined.

Lemma get_file_details_returns (project_id branch_id file_id : json) (w : world) :
  exists v,
    get_file_details project_id branch_id file_id w
    = (Ok v, logged (GetFileDetails project_id branch_id file_id) w).
Proof.
  unfold get_file_details, try_except, bind, send, logged.
  destruct (w_net w (w_log w) _) as [text | resp]; [eexists; reflexivity |].
  unfold raise_for_status.
  destruct ((400 <=? status_code resp) && (status_code resp <? 600))%Z;
    [eexists; reflexivity |].
  unfold ret, response_json.
  destruct (json_body resp); eexists; reflexivity.
Qed.

(** X8. When its request ends in a transport error or an HTTP error
    status, [get_file_details] returns the empty dictionary, having sent
    that one request; it does not raise. *)
Theorem get_file_details_degrades (project_id branch_id file_id : json) (w : world) :
  request_fails w (GetFileDetails project_id branch_id file_id) ->
  get_file_details project_id branch_id file_id w
  = (Ok (JDict []), logged (GetFileDetails project_id branch_id file_id) w).
Proof.
  unfold request_fails, get_file_details, try_except, bind, send, logged.
  destruct (w_net w (w_log w) _) as [text | resp]; intros H; [reflexivity |].
  unfold raise_for_status.
  assert (E : ((400 <=? status_code resp) && (status_code resp <? 600))%Z = true)
    by (apply andb_true_iff; split; [apply Z.leb_le | apply Z.ltb_lt]; lia).
  rewrite E. reflexivity.
Qed.

Lemma get_file_details_degrades_witness :
  get_file_details (JStr "p1") (JStr "b1") (JStr "f1") unavailable_world
  = (Ok (JDict []),
     logged (GetFileDetails (JStr "p1") (JStr "b1") (JStr "f1")) unavailable_world).
Proof.
  apply (get_file_details_degrades (JStr "p1") (JStr "b1") (JStr "f1")
                                   unavailable_world).
  cbn. lia.
Defined.

(** X9. On an accepted response [get_file_details] returns what is under
    ['data'] when the payload is an object that has the key, and the
    payload itself otherwise, a list included. *)
Theorem get_file_details_payload (project_id branch_id file_id : json) (w : world)
        (resp : response) (payload : json) :
  w_net w (w_log w) (GetFileDetails project_id branch_id file_id) = Responded resp ->
  ~ (400 <= status_code resp < 600)%Z ->
  json_body resp = Some payload ->
  get_file_details project_id branch_id file_id w
  = (Ok (match payload with
         | JDict fields =>
             match Py.dict_get "data" fields with
             | Some data => data
             | None => payload
             end
         | _ => payload
         end),
     logged (GetFileDetails project_id branch_id file_id) w).
Proof.
  intros Hnet Hstatus Hbody.
  assert (E : ((400 <=? status_code resp) && (status_code resp <? 600))%Z = false).
  { apply andb_false_iff.
    destruct (400 <=? status_code resp)%Z eqn:E1; [right | now left].
    apply Z.leb_le in E1. apply Z.ltb_ge. lia. }
  unfold get_file_details, try_except, bind, send, logged.
  rewrite Hnet. unfold raise_for_status. rewrite E.
  unfold response_json. rewrite Hbody.
  unfold ret, select_details, Py.dict_has, Py.dict_get_default. cbv beta iota.
  destruct payload as [| b | n | s | items | fields]; try reflexivity.
  destruct (Py.dict_get "data" fields); reflexivity.
Qed.

Lemma get_file_details_payload_witness :
  get_file_details (JStr "p1") (JStr "b1") (JStr "f1") scenario_world
  = (Ok (JDict [("downloadUrl", JStr "https://files.test/blob")]),
     logged (GetFileDetails (JStr "p1") (JStr "b1") (JStr "f1")) scenario_world).
Proof.
  apply (get_file_details_payload (JStr "p1") (JStr "b1") (JStr "f1") scenario_world
                                  (json_response details_payload) details_payload).
  - reflexivity.
  - cbn. lia.
  - reflexivity.
Defined.

(** ** The processing of one project *)

(** X17. When the processing method returns a list in which some entry is
    not an object, the project has already been counted in
    [projects_processed] and its files recorded when the count of the
    successful ones raises: the entry ends with an error status all the
    same. *)
Theorem processed_project_can_end_in_error
        (process_files_structure : json -> Path -> json -> json -> M (list json))
        (project_files : json) (project_dir : Path) (project_id branch_id : json)
        (info : project_info) (w w1 : world) (processed_files : list json) (e : exn) :
  process_files_structure project_files project_dir project_id branch_id w
  = (Ok processed_files, w1) ->
  count_successful processed_files = Raise e ->
  exists info' w',
    process_project_files process_files_structure project_files project_dir
                          project_id branch_id info w = (Ok info', w')
    /\ pi_status info' = ("error - " ++ exn_text e)%string
    /\ pi_files info' = processed_files
    /\ projects_processed (w_stats w') = (projects_processed (w_stats w1) + 1)%Z.
Proof.
  intros Hrun Hcount.
  unfold process_project_files, bind, attempt. rewrite Hrun.
  unfold update_stats, modify. rewrite Hcount.
  do 2 eexists. split; [reflexivity |]. repeat split.
Qed.

Lemma processed_project_can_end_in_error_witness :
  exists info' w',
    process_project_files names_only_structure (JList [JStr "a.txt"])
                          ["bild_backup"; "Alpha"] (JStr "p1") (JStr "b1")
                          (mkProjectInfo (JStr "p1") (JStr "Alpha") (JStr "b1") []
                                         "skipped")
                          scenario_world
    = (Ok info', w')
    /\ pi_status info' = "error - 'str' object has no attribute 'get'"
    /\ pi_files info' = [JStr "a.txt"]
    /\ projects_processed (w_stats w')
       = (projects_processed (w_stats scenario_world) + 1)%Z.
Proof.
  apply (processed_project_can_end_in_error
           names_only_structure (JList [JStr "a.txt"]) ["bild_backup"; "Alpha"]
           (JStr "p1") (JStr "b1")
           (mkProjectInfo (JStr "p1") (JStr "Alpha") (JStr "b1") [] "skipped")
           scenario_world scenario_world [JStr "a.txt"]
           (Py.no_attribute (JStr "a.txt") "get")).
  - reflexivity.
  - reflexivity.
Defined.

(** X18. For entries that are all objects the count of the successful
    ones is a number between 0 and the number of entries. *)
Theorem count_successful_bounded (processed_files : list json) :
  Forall (fun f => Py.is_dict f = true) processed_files ->
  exists n,
    count_successful processed_files = Ok n
    /\ (0 <= n <= Z.of_nat (length processed_files))%Z.
Proof.
  induction 1 as [| f rest Hf Hrest (n & Hn & Hb)].
  - exists 0%Z. split; [reflexivity | simpl; lia].
  - destruct f; try discriminate.
    cbn [count_successful Py.get]. rewrite Hn.
    eexists. split; [reflexivity |].
    cbn [length]. destruct (Py.truthy _); lia.
Qed.

Lemma count_successful_bounded_witness :
  exists n,
    count_successful [JDict [("download_successful", JBool true)]; JDict []] = Ok n
    /\ (0 <= n <= Z.of_nat (length [JDict [("download_successful", JBool true)];
                                     JDict []]))%Z.
Proof.
  apply (count_successful_bounded
           [JDict [("download_successful", JBool true)]; JDict []]).
  repeat constructor.
Defined.

(** ** Flattening arbitrary values *)

(** Induction on a JSON value together with the values it contains. *)
Lemma json_nested_ind (P : json -> Prop) :
  P JNull ->
  (forall b, P (JBool b)) ->
  (forall n, P (JNum n)) ->
  (forall s, P (JStr s)) ->
  (forall items, Forall P items -> P (JList items)) ->
  (forall fields, Forall (fun kv => P (snd kv)) fields -> P (JDict fields)) ->
  forall v, P v.
Proof.
  intros Hnull Hbool Hnum Hstr Hlist Hdict.
  fix IH 1.
  intros [| b | n | s | items | fields].
  - exact Hnull.
  - apply Hbool.
  - apply Hnum.
  - apply Hstr.
  - apply Hlist. induction items as [| x xs IHxs]; constructor; [apply IH | exact IHxs].
  - apply Hdict. induction fields as [| [k x] xs IHxs]; constructor;
      [apply IH | exact IHxs].
Qed.

Lemma with_field_get {R : Type} (key : string) (k : json -> result R)
      (missing : result R) (fields : list (string * json)) :
  with_field key k missing fields
  = match Py.dict_get key fields with
    | Some v => k v
    | None => missing
    end.
Proof.
  induction fields as [| [name v] rest IH]; simpl; [reflexivity |].
  destruct (String.eqb name key); [reflexivity | exact IH].
Qed.

Lemma dict_get_In (key : string) (fields : list (string * json)) (v : json) :
  Py.dict_get key fields = Some v -> exists k, In (k, v) fields.
Proof.
  induction fields as [| [name x] rest IH]; simpl; [discriminate |].
  destruct (String.eqb name key).
  - intros H. injection H as <-. exists name. now left.
  - intros H. destruct (IH H) as (k & Hk). exists k. now right.
Qed.

Lemma for_each_emits_files (budget : nat) (items : list json) :
  Forall emits_files items ->
  forall acc out,
    for_each (process_item budget) items acc = Ok out ->
    only_files acc -> only_files out.
Proof.
  induction 1 as [| x xs Hx Hxs IH]; intros acc out H Hacc; simpl in H.
  - now injection H as <-.
  - destruct (process_item budget x acc) as [acc' | e] eqn:Hp; [| discriminate].
    apply (IH acc' out H). apply (proj1 Hx budget acc acc' Hp Hacc).
Qed.

Lemma process_item_emits_files (v : json) : emits_files v.
Proof.
  induction v as [| b | n | s | items IH | fields IH] using json_nested_ind;
    split; intros budget acc out H Hacc;
    try (destruct budget; discriminate); try discriminate.
  - destruct s; [now injection H as <- | discriminate].
  - exact (for_each_emits_files budget items IH acc out H Hacc).
  - destruct budget as [| budget']; [discriminate |].
    assert (Hsub : forall key,
               with_field key
                 (fun x => for_each_in (process_item budget') (on_string budget') x acc)
                 (Ok acc) fields
               = Ok out -> only_files out).
    { intros key Hw. rewrite with_field_get in Hw.
      destruct (Py.dict_get key fields) as [x |] eqn:Hg.
      - destruct (dict_get_In _ _ _ Hg) as (k & Hin).
        rewrite Forall_forall in IH. specialize (IH (k, x) Hin).
        exact (proj2 IH budget' acc out Hw Hacc).
      - now injection Hw as <-. }
    cbn [process_item] in H.
    destruct (Py.eq_str (Py.dict_get_default "type" JNull fields) "file") eqn:Hfile.
    + injection H as <-. apply Forall_app. split; [exact Hacc |].
      constructor; [exact Hfile | constructor].
    + destruct (Py.eq_str (Py.dict_get_default "type" JNull fields) "folder"
                && Py.dict_has "children" fields).
      * exact (Hsub _ H).
      * destruct (Py.dict_has "files" fields); [exact (Hsub _ H) |].
        now injection H as <-.
  - destruct fields as [| [k x] rest]; [now injection H as <- | discriminate].
Qed.

(** X19. Whatever JSON value is flattened and whatever the number of
    nested calls allowed, when flattening returns, every record it returns
    is an object whose ['type'] is ['file']: folders and untyped nodes are
    never emitted. *)
Theorem flatten_emits_only_files (budget : nat) (files_data : json)
        (out : list json) :
  flatten_file_structure budget files_data = Ok out ->
  Forall (fun record => is_file_record record = true) out.
Proof.
  intros H.
  apply (proj2 (process_item_emits_files files_data) budget [] out H).
  constructor.
Qed.

Lemma flatten_emits_only_files_witness :
  Forall (fun record => is_file_record record = true)
         (map to_json (flat_map file_leaves alpha_files)).
Proof.
  apply (flatten_emits_only_files 2 (JList (map to_json alpha_files))).
  reflexivity.
Defined.

Lemma Shape_tree_ind (P : Shape -> Prop) :
  (forall item, P (Emitted item)) ->
  (forall below, Forall P below -> P (Walked below)) ->
  P Dropped ->
  forall s, P s.
Proof.
  intros Hemit Hwalk Hdrop.
  fix IH 1.
  intros [item | below |].
  - apply Hemit.
  - apply Hwalk.
    induction below as [| c cs IHcs]; constructor; [apply IH | exact IHcs].
  - apply Hdrop.
Qed.

Lemma for_each_shapes (budget : nat) (shapes : list Shape) :
  Forall (fun s => forall item b acc,
            represents s item ->
            process_item b item acc
            = walk_outcome b (shape_depth s) acc (emitted s))
         shapes ->
  forall items acc,
    Forall2 represents shapes items ->
    for_each (process_item budget) items acc
    = walk_outcome budget (list_max (map shape_depth shapes)) acc
                   (flat_map emitted shapes).
Proof.
  induction 1 as [| c cs Hc Hcs IH]; intros items acc Hrep.
  - inversion Hrep; subst. unfold walk_outcome. simpl. now rewrite app_nil_r.
  - inversion Hrep as [| c' item cs' rest Hitem Hrest]; subst.
    cbn [map for_each flat_map list_max fold_right]. rewrite (Hc item budget acc Hitem).
    fold (list_max (map shape_depth cs)).
    unfold walk_outcome at 1.
    destruct (shape_depth c <=? budget)%nat eqn:Ec.
    + rewrite (IH rest _ Hrest). unfold walk_outcome.
      apply Nat.leb_le in Ec.
      destruct (list_max (map shape_depth cs) <=? budget)%nat eqn:Es.
      * apply Nat.leb_le in Es.
        assert (E : (Nat.max (shape_depth c) (list_max (map shape_depth cs)) <=? budget)%nat = true)
          by (apply Nat.leb_le; lia).
        rewrite E, app_assoc. reflexivity.
      * apply Nat.leb_gt in Es.
        assert (E : (Nat.max (shape_depth c) (list_max (map shape_depth cs)) <=? budget)%nat = false)
          by (apply Nat.leb_gt; lia).
        now rewrite E.
    + apply Nat.leb_gt in Ec. unfold walk_outcome.
      assert (E : (Nat.max (shape_depth c) (list_max (map shape_depth cs)) <=? budget)%nat = false)
        by (apply Nat.leb_gt; lia).
      now rewrite E.
Qed.

Lemma process_item_dict (b : nat) (fields : list (string * json)) (acc : list json) :
  process_item (S b) (JDict fields) acc
  = if has_type "file" fields
    then Ok (acc ++ [JDict fields])
    else if has_type "folder" fields && Py.dict_has "children" fields
    then match Py.dict_get "children" fields with
         | Some children =>
             for_each_in (process_item b) (on_string b) children acc
         | None => Ok acc
         end
    else if Py.dict_has "files" fields
    then match Py.dict_get "files" fields with
         | Some files => for_each_in (process_item b) (on_string b) files acc
         | None => Ok acc
         end
    else Ok acc.
Proof.
  cbn [process_item]. unfold has_type.
  now rewrite !with_field_get.
Qed.

Lemma process_item_shape (s : Shape) :
  forall item budget acc,
    represents s item ->
    process_item budget item acc
    = walk_outcome budget (shape_depth s) acc (emitted s).
Proof.
  induction s as [it | below IH |] using Shape_tree_ind; intros item budget acc Hrep.
  - inversion Hrep as [fields Hfile | | |]; subst.
    destruct budget as [| b]; [reflexivity |].
    rewrite process_item_dict, Hfile. reflexivity.
  - destruct budget as [| b]; [inversion Hrep; reflexivity |].
    inversion Hrep as [| fields below' children Hfile Hfolder Hget Hbelow
                       | fields below' files Hfile Hnot Hget Hbelow |]; subst;
      rewrite process_item_dict, Hfile.
    + unfold Py.dict_has. rewrite Hfolder, Hget. cbn [andb for_each_in].
      rewrite (for_each_shapes b below IH children acc Hbelow). reflexivity.
    + rewrite Hnot. unfold Py.dict_has. rewrite Hget. cbn [for_each_in].
      rewrite (for_each_shapes b below IH files acc Hbelow). reflexivity.
  - inversion Hrep as [| | | fields Hfile Hnot Hfiles]; subst.
    destruct budget as [| b]; [reflexivity |].
    rewrite process_item_dict, Hfile, Hnot, Hfiles.
    unfold walk_outcome. simpl. now rewrite app_nil_r.
Qed.

(** X20. Take any list of JSON objects in which every list that
    flattening walks holds objects again: the ['children'] of an object of
    type folder, and the ['files'] of an object that is not of type file
    and is not a folder with ['children'].  When the nested calls allowed
    suffice for the depth of the tree, flattening returns the objects of
    type file, each unchanged and with nothing below it looked at, depth
    first in listed order, and passes over every object that has neither
    the type file nor a list to walk.  When they do not suffice it raises
    [RecursionError]. *)
Theorem flatten_object_tree (budget : nat) (shapes : list Shape) (items : list json) :
  Forall2 represents shapes items ->
  flatten_file_structure budget (JList items)
  = if (list_max (map shape_depth shapes) <=? budget)%nat
    then Ok (flat_map emitted shapes)
    else Raise recursion_error.
Proof.
  intros Hrep.
  unfold flatten_file_structure. cbn [for_each_in].
  rewrite (for_each_shapes budget shapes) with (items := items) (acc := []).
  - reflexivity.
  - apply Forall_forall. intros s _ item b acc. apply process_item_shape.
  - exact Hrep.
Qed.

Lemma listed_shapes_represent : Forall2 represents listed_shapes listed_objects.
Proof.
  unfold listed_shapes, listed_objects.
  repeat first
    [ apply Forall2_nil
    | apply Forall2_cons
    | apply represents_file; reflexivity
    | eapply represents_folder; [reflexivity | reflexivity | reflexivity |]
    | eapply represents_container; [reflexivity | reflexivity | reflexivity |]
    | apply represents_other; reflexivity ].
Qed.

Lemma flatten_object_tree_witness :
  Forall2 represents listed_shapes listed_objects
  /\ flatten_file_structure 2 (JList listed_objects)
     = Ok [JDict [("name", JStr "a.txt"); ("type", JStr "file")];
           JDict [("type", JStr "file"); ("files", JList [JNum 1])]]
  /\ flatten_file_structure 1 (JList listed_objects) = Raise recursion_error.
Proof.
  split; [exact listed_shapes_represent |].
  split.
  - exact (flatten_object_tree 2 listed_shapes listed_objects
                               listed_shapes_represent).
  - exact (flatten_object_tree 1 listed_shapes listed_objects
                               listed_shapes_represent).
Defined.
